(** * DatasetGeneratorMicroservice: indicator / merge / flatten pipeline

    A shallow embedding of the Python sources

      - [src/models/data_models.py]   (records and [MarketData.to_dict])
      - [src/utils/indicators.py]     ([calculate_indicators],
                                       [convert_to_technical_indicators])
      - [src/data_processor.py]       ([DataProcessor])
      - [src/data_storage.py]         ([DataStorage.save_market_data_list])
      - [src/exchange_service.py]     ([ExchangeService])
      - [src/main.py]                 ([DataCollector.collect_data])

    Python [float] is IEEE-754 binary64 and is embedded as Rocq's primitive
    [float]; Python [int] is [Z]; [str] is [string]; a [dict] is an
    insertion-ordered association list; an exception is the [Raise] branch of
    [outcome].  The third-party packages ([ta], [pandas] sorting, [ccxt]) are
    not part of the repository: they enter as records of operations
    ([ta.Lib], [PandasSort], [Env]). *)

From Stdlib Require Import ZArith String List Floats Uint63 Lia.
From stdpp Require Import base option list sorting strings gmap.
Import ListNotations.

Open Scope string_scope.
Open Scope Z_scope.
Open Scope list_scope.

(** ** Python runtime values *)

Inductive exn : Type :=
| ZeroDivisionError
| IndexError
| ValueError
| NetworkError
| OtherError (msg : string).

Inductive outcome (A : Type) : Type :=
| Ok (a : A)
| Raise (e : exn).
Arguments Ok {A} a.
Arguments Raise {A} e.

#[global] Instance outcome_ret : MRet outcome := fun A (a : A) => Ok a.

#[global] Instance outcome_bind : MBind outcome :=
  fun A B (k : A -> outcome B) (m : outcome A) =>
    match m with
    | Ok a => k a
    | Raise e => Raise e
    end.

#[global] Instance outcome_fmap : FMap outcome :=
  fun A B (f : A -> B) (m : outcome A) =>
    match m with
    | Ok a => Ok (f a)
    | Raise e => Raise e
    end.

(** [datetime.fromtimestamp(timestamp / 1000)]: a datetime is kept as the
    epoch-millisecond stamp it was built from. *)
Inductive datetime : Type :=
| fromtimestamp_ms (ms : Z).

Inductive pyval : Type :=
| VNone
| VInt (n : Z)
| VFloat (x : float)
| VStr (s : string)
| VDatetime (d : datetime).

(** A Python [dict]: insertion ordered; assigning to an existing key keeps
    its position, assigning to a new key appends. *)
Abbreviation pydict := (list (string * pyval)).

Fixpoint dict_set (k : string) (v : pyval) (d : pydict) : pydict :=
  match d with
  | [] => [(k, v)]
  | (k', v') :: d' =>
      if String.eqb k k' then (k, v) :: d' else (k', v') :: dict_set k v d'
  end.

Fixpoint dict_get (k : string) (d : pydict) : option pyval :=
  match d with
  | [] => None
  | (k', v') :: d' => if String.eqb k k' then Some v' else dict_get k d'
  end.

Definition dict_keys (d : pydict) : list string := map fst d.

Definition dict_has (k : string) (d : pydict) : bool :=
  match dict_get k d with Some _ => true | None => false end.

(** [x / y] on Python floats: a zero divisor (of either sign) raises. *)
Definition py_truediv (x y : float) : outcome float :=
  if PrimFloat.eqb y 0%float then Raise ZeroDivisionError
  else Ok (x / y)%float.

(** [Optional[float]] as a dict value. *)
Definition optional_float (o : option float) : pyval :=
  match o with
  | Some x => VFloat x
  | None => VNone
  end.

(** ** src/models/data_models.py *)

Record OHLCV : Type := mkOHLCV {
  ohlcv_timestamp : Z;
  ohlcv_datetime : datetime;
  ohlcv_open : float;
  ohlcv_high : float;
  ohlcv_low : float;
  ohlcv_close : float;
  ohlcv_volume : float;
  ohlcv_symbol : string;
  ohlcv_timeframe : string
}.

Record OrderBookLevel : Type := mkOrderBookLevel {
  price : float;
  amount : float
}.

Record OrderBook : Type := mkOrderBook {
  ob_timestamp : Z;
  ob_datetime : datetime;
  ob_symbol : string;
  bids : list OrderBookLevel;
  asks : list OrderBookLevel
}.

Record TechnicalIndicators : Type := mkTechnicalIndicators {
  ti_symbol : string;
  ti_timeframe : string;
  ti_timestamp : Z;
  ti_datetime : datetime;
  sma_20 : option float;
  sma_50 : option float;
  sma_200 : option float;
  ema_12 : option float;
  ema_26 : option float;
  rsi_14 : option float;
  macd : option float;
  macd_signal : option float;
  macd_hist : option float;
  bb_upper : option float;
  bb_middle : option float;
  bb_lower : option float;
  atr_14 : option float;
  obv : option float
}.

Record MarketData : Type := mkMarketData {
  ohlcv : OHLCV;
  indicators : TechnicalIndicators;
  order_book_snapshot : option OrderBook
}.

(** [OHLCV.dict()]: fields in declaration order. *)
Definition OHLCV_dict (c : OHLCV) : pydict :=
  [ ("timestamp", VInt (ohlcv_timestamp c));
    ("datetime", VDatetime (ohlcv_datetime c));
    ("open", VFloat (ohlcv_open c));
    ("high", VFloat (ohlcv_high c));
    ("low", VFloat (ohlcv_low c));
    ("close", VFloat (ohlcv_close c));
    ("volume", VFloat (ohlcv_volume c));
    ("symbol", VStr (ohlcv_symbol c));
    ("timeframe", VStr (ohlcv_timeframe c)) ].

(** [TechnicalIndicators.dict()]: fields in declaration order. *)
Definition TechnicalIndicators_dict (t : TechnicalIndicators) : pydict :=
  [ ("symbol", VStr (ti_symbol t));
    ("timeframe", VStr (ti_timeframe t));
    ("timestamp", VInt (ti_timestamp t));
    ("datetime", VDatetime (ti_datetime t));
    ("sma_20", optional_float (sma_20 t));
    ("sma_50", optional_float (sma_50 t));
    ("sma_200", optional_float (sma_200 t));
    ("ema_12", optional_float (ema_12 t));
    ("ema_26", optional_float (ema_26 t));
    ("rsi_14", optional_float (rsi_14 t));
    ("macd", optional_float (macd t));
    ("macd_signal", optional_float (macd_signal t));
    ("macd_hist", optional_float (macd_hist t));
    ("bb_upper", optional_float (bb_upper t));
    ("bb_middle", optional_float (bb_middle t));
    ("bb_lower", optional_float (bb_lower t));
    ("atr_14", optional_float (atr_14 t));
    ("obv", optional_float (obv t)) ].

Definition str_in (s : string) (l : list string) : bool :=
  existsb (String.eqb s) l.

(** [X[0].price if X else None] *)
Definition best_price (levels : list OrderBookLevel) : pyval :=
  match levels with
  | l0 :: _ => VFloat (price l0)
  | [] => VNone
  end.

Definition best_amount (levels : list OrderBookLevel) : pyval :=
  match levels with
  | l0 :: _ => VFloat (amount l0)
  | [] => VNone
  end.

(** [MarketData.to_dict] *)
Definition to_dict (self : MarketData) : outcome pydict :=
  let data : pydict :=
    [ ("timestamp", VInt (ohlcv_timestamp (ohlcv self)));
      ("datetime", VDatetime (ohlcv_datetime (ohlcv self)));
      ("symbol", VStr (ohlcv_symbol (ohlcv self)));
      ("timeframe", VStr (ohlcv_timeframe (ohlcv self)));
      ("open", VFloat (ohlcv_open (ohlcv self)));
      ("high", VFloat (ohlcv_high (ohlcv self)));
      ("low", VFloat (ohlcv_low (ohlcv self)));
      ("close", VFloat (ohlcv_close (ohlcv self)));
      ("volume", VFloat (ohlcv_volume (ohlcv self))) ] in
  let data :=
    fold_left
      (fun data '(field, value) =>
         if negb (str_in field ["symbol"; "timeframe"; "timestamp"; "datetime"])
         then dict_set field value data
         else data)
      (TechnicalIndicators_dict (indicators self)) data in
  match order_book_snapshot self with
  | Some ob =>
      let data := dict_set "best_bid_price" (best_price (bids ob)) data in
      let data := dict_set "best_bid_amount" (best_amount (bids ob)) data in
      let data := dict_set "best_ask_price" (best_price (asks ob)) data in
      let data := dict_set "best_ask_amount" (best_amount (asks ob)) data in
      match asks ob, bids ob with
      | a0 :: _, b0 :: _ =>
          let spread := (price a0 - price b0)%float in
          let data := dict_set "spread" (VFloat spread) data in
          match py_truediv spread (price b0) with
          | Ok q => Ok (dict_set "spread_percent" (VFloat (q * 100)%float) data)
          | Raise e => Raise e
          end
      | _, _ => Ok data
      end
  | None => Ok data
  end.

(** Column groups of the flattened row. *)
Definition base_columns : list string :=
  ["timestamp"; "datetime"; "symbol"; "timeframe";
   "open"; "high"; "low"; "close"; "volume"].

Definition order_book_columns : list string :=
  ["best_bid_price"; "best_bid_amount"; "best_ask_price"; "best_ask_amount";
   "spread"; "spread_percent"].

(** The fourteen indicator fields of [TechnicalIndicators]. *)
Inductive ind_field : Type :=
| F_sma_20 | F_sma_50 | F_sma_200 | F_ema_12 | F_ema_26
| F_rsi_14 | F_macd | F_macd_signal | F_macd_hist
| F_bb_upper | F_bb_middle | F_bb_lower | F_atr_14 | F_obv.

Definition all_ind_fields : list ind_field :=
  [F_sma_20; F_sma_50; F_sma_200; F_ema_12; F_ema_26;
   F_rsi_14; F_macd; F_macd_signal; F_macd_hist;
   F_bb_upper; F_bb_middle; F_bb_lower; F_atr_14; F_obv].

Definition field_name (f : ind_field) : string :=
  match f with
  | F_sma_20 => "sma_20" | F_sma_50 => "sma_50" | F_sma_200 => "sma_200"
  | F_ema_12 => "ema_12" | F_ema_26 => "ema_26"
  | F_rsi_14 => "rsi_14" | F_macd => "macd"
  | F_macd_signal => "macd_signal" | F_macd_hist => "macd_hist"
  | F_bb_upper => "bb_upper" | F_bb_middle => "bb_middle"
  | F_bb_lower => "bb_lower" | F_atr_14 => "atr_14" | F_obv => "obv"
  end.

Definition ti_get (f : ind_field) (t : TechnicalIndicators) : option float :=
  match f with
  | F_sma_20 => sma_20 t | F_sma_50 => sma_50 t | F_sma_200 => sma_200 t
  | F_ema_12 => ema_12 t | F_ema_26 => ema_26 t
  | F_rsi_14 => rsi_14 t | F_macd => macd t
  | F_macd_signal => macd_signal t | F_macd_hist => macd_hist t
  | F_bb_upper => bb_upper t | F_bb_middle => bb_middle t
  | F_bb_lower => bb_lower t | F_atr_14 => atr_14 t | F_obv => obv t
  end.

Definition indicator_columns : list string := map field_name all_ind_fields.

(** The key an indicator set or a candle is identified by. *)
Definition ohlcv_key (c : OHLCV) : string * string * Z :=
  (ohlcv_symbol c, ohlcv_timeframe c, ohlcv_timestamp c).

Definition ti_key (t : TechnicalIndicators) : string * string * Z :=
  (ti_symbol t, ti_timeframe t, ti_timestamp t).

(** ** Control flow: state and exceptions

    A statement sequence that mutates a local object of type [S] and may
    raise is a function [S -> outcome A * S]; the state reached when the
    exception was raised is kept, as it is by a Python [try] block mutating a
    DataFrame or a list in place. *)

Definition M (S A : Type) : Type := S -> outcome A * S.

#[global] Instance M_ret {S} : MRet (M S) :=
  fun A (a : A) (s : S) => (Ok a, s).

#[global] Instance M_bind {S} : MBind (M S) :=
  fun A B (k : A -> M S B) (m : M S A) (s : S) =>
    match m s with
    | (Ok a, s') => k a s'
    | (Raise e, s') => (Raise e, s')
    end.

(** Evaluate an expression that reads the state and may raise. *)
Definition call {S A} (f : S -> outcome A) : M S A :=
  fun s => (f s, s).

Definition modify {S} (f : S -> S) : M S unit :=
  fun s => (Ok tt, f s).

(** [try: body  except Exception as e: handler(e)] *)
Definition try_except {S A} (body : M S A) (handler : exn -> M S A) : M S A :=
  fun s =>
    match body s with
    | (Ok a, s') => (Ok a, s')
    | (Raise e, s') => handler e s'
    end.

(** [for x in xs: body(x)] *)
Fixpoint for_each {S A} (xs : list A) (body : A -> M S unit) : M S unit :=
  match xs with
  | [] => mret tt
  | x :: xs' => body x ≫= fun _ => for_each xs' body
  end.

(** ** pandas: a DataFrame of candles with added float columns

    A frame is kept row-major: each row holds the candle it was built from
    ([pd.DataFrame([o.dict() for o in ohlcv_list])]) and the float columns
    assigned later, in assignment order.  A Series is a list of floats in row
    position; [nan] is the missing marker. *)

Abbreviation Series := (list float).

Record Row : Type := mkRow {
  row_ohlcv : OHLCV;
  row_extra : list (string * float)
}.

Abbreviation DataFrame := (list Row).

Fixpoint extra_set (k : string) (x : float) (d : list (string * float))
  : list (string * float) :=
  match d with
  | [] => [(k, x)]
  | (k', x') :: d' =>
      if String.eqb k k' then (k, x) :: d' else (k', x') :: extra_set k x d'
  end.

Fixpoint extra_get (k : string) (d : list (string * float)) : option float :=
  match d with
  | [] => None
  | (k', x') :: d' => if String.eqb k k' then Some x' else extra_get k d'
  end.

(** [df[name] = series]: the library returns its series on the index of the
    series it was given, so aligning on the index is aligning on the row
    position; the cell of row [i] is the series value at [i], and a position
    the series does not cover is filled with [nan]. *)
Definition set_column (name : string) (series : Series) (df : DataFrame)
  : DataFrame :=
  imap (fun i row =>
          mkRow (row_ohlcv row)
                (extra_set name (nth i series nan) (row_extra row))) df.

Definition col_close (df : DataFrame) : Series :=
  map (fun r => ohlcv_close (row_ohlcv r)) df.
Definition col_high (df : DataFrame) : Series :=
  map (fun r => ohlcv_high (row_ohlcv r)) df.
Definition col_low (df : DataFrame) : Series :=
  map (fun r => ohlcv_low (row_ohlcv r)) df.
Definition col_volume (df : DataFrame) : Series :=
  map (fun r => ohlcv_volume (row_ohlcv r)) df.

(** [field in row] and [row[field]] on [row.to_dict()]. *)
Definition row_has (field : string) (row : Row) : bool :=
  str_in field (dict_keys (OHLCV_dict (row_ohlcv row)))
  || str_in field (map fst (row_extra row)).

Definition row_float (field : string) (row : Row) : option float :=
  extra_get field (row_extra row).

(** [DataFrame.sort_values]: pandas sorts with an unspecified (by default
    unstable) algorithm, so only its contract is fixed: the result is a
    rearrangement of the rows, ordered by the comparison. *)
Record PandasSort : Type := mkPandasSort {
  sort_values : forall A : Type, (A -> A -> bool) -> list A -> list A;
  sort_values_perm : forall A leb (l : list A), sort_values A leb l ≡ₚ l;
  sort_values_sorted : forall A (leb : A -> A -> bool) (l : list A),
    (forall x y, leb x y = true \/ leb y x = true) ->
    Sorted (fun x y => leb x y = true) (sort_values A leb l)
}.
Arguments sort_values _ {A} _ _.

Definition by_timestamp (r1 r2 : Row) : bool :=
  ohlcv_timestamp (row_ohlcv r1) <=? ohlcv_timestamp (row_ohlcv r2).

(** ** The [ta] package (third party)

    Every entry point may raise; a class ([MACD], [BollingerBands]) is built
    once and then queried for its lines. *)
Module ta.

Record MACD : Type := mkMACD {
  macd : outcome Series;
  macd_signal : outcome Series;
  macd_diff : outcome Series
}.

Record BollingerBands : Type := mkBollingerBands {
  bollinger_hband : outcome Series;
  bollinger_mavg : outcome Series;
  bollinger_lband : outcome Series
}.

Record Lib : Type := mkLib {
  sma_indicator : Series -> nat -> outcome Series;
  ema_indicator : Series -> nat -> outcome Series;
  MACD_new : Series -> nat -> nat -> nat -> outcome MACD;
  rsi : Series -> nat -> outcome Series;
  BollingerBands_new : Series -> nat -> nat -> outcome BollingerBands;
  average_true_range : Series -> Series -> Series -> nat -> outcome Series;
  on_balance_volume : Series -> Series -> outcome Series
}.

End ta.

(** ** src/utils/indicators.py and src/data_processor.py *)

Section Engine.

Context (pd : PandasSort) (lib : ta.Lib).

(** [df[name] = <expression over df>] *)
Definition assign (name : string) (f : DataFrame -> outcome Series)
  : M DataFrame unit :=
  series ← call f; modify (set_column name series).

(** The body of the [try] block of [calculate_indicators]. *)
Definition indicator_block : M DataFrame unit :=
  assign "sma_20" (fun df => ta.sma_indicator lib (col_close df) 20);;
  assign "sma_50" (fun df => ta.sma_indicator lib (col_close df) 50);;
  assign "sma_200" (fun df => ta.sma_indicator lib (col_close df) 200);;
  assign "ema_12" (fun df => ta.ema_indicator lib (col_close df) 12);;
  assign "ema_26" (fun df => ta.ema_indicator lib (col_close df) 26);;
  macd ← call (fun df => ta.MACD_new lib (col_close df) 26 12 9);
  assign "macd" (fun _ => ta.macd macd);;
  assign "macd_signal" (fun _ => ta.macd_signal macd);;
  assign "macd_hist" (fun _ => ta.macd_diff macd);;
  assign "rsi_14" (fun df => ta.rsi lib (col_close df) 14);;
  bollinger ← call (fun df => ta.BollingerBands_new lib (col_close df) 20 2);
  assign "bb_upper" (fun _ => ta.bollinger_hband bollinger);;
  assign "bb_middle" (fun _ => ta.bollinger_mavg bollinger);;
  assign "bb_lower" (fun _ => ta.bollinger_lband bollinger);;
  assign "atr_14"
    (fun df => ta.average_true_range lib
                 (col_high df) (col_low df) (col_close df) 14);;
  assign "obv" (fun df => ta.on_balance_volume lib (col_close df) (col_volume df)).

(** [calculate_indicators]: an empty frame is returned as an empty frame;
    otherwise the rows are sorted by timestamp and the [try] block runs,
    any exception being logged and swallowed: the frame is returned with the
    columns assigned before the exception. *)
Definition calculate_indicators (ohlcv_df : DataFrame) : outcome DataFrame :=
  match ohlcv_df with
  | [] => Ok []
  | _ :: _ =>
      let df := sort_values pd by_timestamp ohlcv_df in
      match try_except indicator_block (fun _ => mret tt) df with
      | (Ok _, df) => Ok df
      | (Raise e, _) => Raise e
      end
  end.

Definition indicator_fields : list string :=
  ["sma_20"; "sma_50"; "sma_200"; "ema_12"; "ema_26";
   "rsi_14"; "macd"; "macd_signal"; "macd_hist";
   "bb_upper"; "bb_middle"; "bb_lower"; "atr_14"; "obv"].

(** The keyword dictionary built by [convert_to_technical_indicators]. *)
Record IndicatorData : Type := mkIndicatorData {
  kw_symbol : string;
  kw_timeframe : string;
  kw_timestamp : Z;
  kw_datetime : datetime;
  kw_fields : list (string * float)
}.

Definition convert_to_technical_indicators (row : Row) : IndicatorData :=
  mkIndicatorData
    (ohlcv_symbol (row_ohlcv row))
    (ohlcv_timeframe (row_ohlcv row))
    (ohlcv_timestamp (row_ohlcv row))
    (ohlcv_datetime (row_ohlcv row))
    (fold_left
       (fun indicators field =>
          if row_has field row then
            match row_float field row with
            | Some x => extra_set field x indicators
            | None => indicators
            end
          else indicators)
       indicator_fields []).

(** The [TechnicalIndicators] constructor applied to the keyword dictionary:
    a field that is not passed keeps its default [None]. *)
Definition TechnicalIndicators_init (kw : IndicatorData) : TechnicalIndicators :=
  mkTechnicalIndicators
    (kw_symbol kw) (kw_timeframe kw) (kw_timestamp kw) (kw_datetime kw)
    (extra_get "sma_20" (kw_fields kw))
    (extra_get "sma_50" (kw_fields kw))
    (extra_get "sma_200" (kw_fields kw))
    (extra_get "ema_12" (kw_fields kw))
    (extra_get "ema_26" (kw_fields kw))
    (extra_get "rsi_14" (kw_fields kw))
    (extra_get "macd" (kw_fields kw))
    (extra_get "macd_signal" (kw_fields kw))
    (extra_get "macd_hist" (kw_fields kw))
    (extra_get "bb_upper" (kw_fields kw))
    (extra_get "bb_middle" (kw_fields kw))
    (extra_get "bb_lower" (kw_fields kw))
    (extra_get "atr_14" (kw_fields kw))
    (extra_get "obv" (kw_fields kw)).

(** [DataProcessor.ohlcv_to_dataframe] *)
Definition ohlcv_to_dataframe (ohlcv_list : list OHLCV) : DataFrame :=
  match ohlcv_list with
  | [] => []
  | _ :: _ =>
      let df := map (fun o => mkRow o []) ohlcv_list in
      sort_values pd by_timestamp df
  end.

(** [DataProcessor.calculate_technical_indicators] *)
Definition calculate_technical_indicators (ohlcv_list : list OHLCV)
  : outcome (list TechnicalIndicators) :=
  match ohlcv_list with
  | [] => Ok []
  | _ :: _ =>
      let df := ohlcv_to_dataframe ohlcv_list in
      df_with_indicators ← calculate_indicators df;
      Ok (map (fun row =>
                 TechnicalIndicators_init (convert_to_technical_indicators row))
              df_with_indicators)
  end.

(** [DataProcessor.merge_data] *)
Definition merge_data (ohlcv : OHLCV)
    (indicators : option TechnicalIndicators)
    (orderbook : option OrderBook) : MarketData :=
  let indicators :=
    match indicators with
    | None =>
        mkTechnicalIndicators
          (ohlcv_symbol ohlcv) (ohlcv_timeframe ohlcv)
          (ohlcv_timestamp ohlcv) (ohlcv_datetime ohlcv)
          None None None None None None None None None None None None None None
    | Some indicators => indicators
    end in
  mkMarketData ohlcv indicators orderbook.

(** [{indicator.timestamp: indicator for indicator in indicators_list}]:
    a later entry with the same timestamp replaces an earlier one. *)
Definition indicators_by_timestamp (indicators_list : list TechnicalIndicators)
  : gmap Z TechnicalIndicators :=
  foldl (fun d indicator => <[ti_timestamp indicator := indicator]> d)
        ∅ indicators_list.

(** [DataProcessor.process_ohlcv_with_indicators] *)
Definition process_ohlcv_with_indicators (ohlcv_list : list OHLCV)
  : outcome (list MarketData) :=
  match ohlcv_list with
  | [] => Ok []
  | _ :: _ =>
      indicators_list ← calculate_technical_indicators ohlcv_list;
      let indicators_dict := indicators_by_timestamp indicators_list in
      Ok (map (fun ohlcv =>
                 let indicator := indicators_dict !! ohlcv_timestamp ohlcv in
                 merge_data ohlcv indicator None)
              ohlcv_list)
  end.

(** The sort key of [df.sort_values(['symbol', 'timeframe', 'timestamp'])],
    read from a flattened row. *)
Definition row_sort_key (row : pydict) : string * string * Z :=
  (match dict_get "symbol" row with Some (VStr s) => s | _ => "" end,
   match dict_get "timeframe" row with Some (VStr s) => s | _ => "" end,
   match dict_get "timestamp" row with Some (VInt n) => n | _ => 0 end).

Definition key_leb (k1 k2 : string * string * Z) : bool :=
  let '(s1, f1, t1) := k1 in
  let '(s2, f2, t2) := k2 in
  if String.eqb s1 s2 then
    if String.eqb f1 f2 then t1 <=? t2 else String.leb f1 f2
  else String.leb s1 s2.

Definition by_symbol_timeframe_timestamp (r1 r2 : pydict) : bool :=
  key_leb (row_sort_key r1) (row_sort_key r2).

(** [DataProcessor.dataframe_to_csv]: flatten, then sort the rows. *)
Definition dataframe_to_csv (market_data_list : list MarketData)
  : outcome (list pydict) :=
  match market_data_list with
  | [] => Ok []
  | _ :: _ =>
      data ← mapM to_dict market_data_list;
      Ok (sort_values pd by_symbol_timeframe_timestamp data)
  end.

End Engine.

(** ** External collaborators

    The exchange client ([ccxt]), the CSV file and the platform's clock and
    calendar are outside the repository.  They act on a world [W]; each call
    may raise.  The [since] bound that [fetch_historical_ohlcv] derives from
    the wall clock and the append/header mode that [save_to_csv] derives
    from the file system are part of the world.

    What the client hands back is kept as far as the code's own handling
    distinguishes it.  An item that unpacks into the expected number of
    values, each accepted by the pydantic model it is passed to, is
    [WellFormed]; on any other item (a wrong number of entries, [None] in
    place of a number) the unpacking or the model's validation raises, and
    the item is [Malformed]. *)
Inductive raw (A : Type) : Type :=
| WellFormed (a : A)
| Malformed.
Arguments WellFormed {A} a.
Arguments Malformed {A}.

(** [a, b, ... = item] followed by the validation of the unpacked values. *)
Definition unpack {A} (item : raw A) : outcome A :=
  match item with
  | WellFormed a => Ok a
  | Malformed => Raise ValueError
  end.

Definition RawCandle : Type := (Z * float * float * float * float * float)%type.

(** The [timestamp] entry of the client's order book: the key is missing,
    or it holds [None], or it holds epoch milliseconds.  An order book
    without its [bids] or [asks] entry behaves as one with a malformed
    level: the subscript raises inside the same [try]. *)
Inductive RawStamp : Type :=
| StampMissing
| StampNone
| StampMs (ms : Z).

Record RawOrderBook : Type := mkRawOrderBook {
  raw_timestamp : RawStamp;
  raw_bids : list (raw (float * float));
  raw_asks : list (raw (float * float))
}.

(** [time_ms] is [int(time.time() * 1000)].  [datetime_range] tells the
    epoch-millisecond stamps on which [datetime.fromtimestamp(ms / 1000)]
    returns; on the others it raises ([ValueError], [OverflowError] or
    [OSError]).  The range depends on the platform and on the local time
    zone. *)
Record Env (W : Type) : Type := mkEnv {
  fetch_ohlcv : string -> string -> nat -> M W (list (raw RawCandle));
  fetch_order_book : string -> nat -> M W RawOrderBook;
  to_csv : list pydict -> M W unit;
  time_ms : W -> Z;
  datetime_range : Z -> bool
}.
Arguments mkEnv {W} _ _ _ _ _.
Arguments fetch_ohlcv {W} _ _ _ _.
Arguments fetch_order_book {W} _ _ _.
Arguments to_csv {W} _ _.
Arguments time_ms {W} _ _.
Arguments datetime_range {W} _ _.

(** [datetime.fromtimestamp(timestamp / 1000)]; the handlers around its
    call sites catch [Exception] and do not look at the class. *)
Definition datetime_fromtimestamp {W} (env : Env W) (timestamp : Z)
  : outcome datetime :=
  if datetime_range env timestamp then Ok (fromtimestamp_ms timestamp)
  else Raise ValueError.

(** The local state of one [collect_data] run. *)
Record Run (W : Type) : Type := mkRun {
  world : W;
  all_market_data : list MarketData
}.
Arguments mkRun {W} _ _.
Arguments world {W} _.
Arguments all_market_data {W} _.

Definition in_world {W A} (m : M W A) : M (Run W) A :=
  fun r =>
    let '(o, w) := m (world r) in
    (o, mkRun w (all_market_data r)).

(** [all_market_data[i].ohlcv.symbol == symbol and
     all_market_data[i].ohlcv.timeframe == timeframe] *)
Definition is_pair (symbol timeframe : string) (md : MarketData) : bool :=
  String.eqb (ohlcv_symbol (ohlcv md)) symbol
  && String.eqb (ohlcv_timeframe (ohlcv md)) timeframe.

(** [md.order_book_snapshot = orderbook] *)
Definition set_order_book (orderbook : OrderBook) (md : MarketData) : MarketData :=
  mkMarketData (ohlcv md) (indicators md) (Some orderbook).

(** [for i in range(n - 1, -1, -1): if <pair>: <assign>; break] *)
Fixpoint attach_scan (n : nat) (symbol timeframe : string)
    (orderbook : OrderBook) (all : list MarketData) : list MarketData :=
  match n with
  | O => all
  | S i =>
      match all !! i with
      | Some md =>
          if is_pair symbol timeframe md
          then <[i := set_order_book orderbook md]> all
          else attach_scan i symbol timeframe orderbook all
      | None => attach_scan i symbol timeframe orderbook all
      end
  end.

(** The [if orderbook:] block of [collect_data]. *)
Definition attach_orderbook (symbol : string) (timeframes : list string)
    (orderbook : OrderBook) (all : list MarketData) : list MarketData :=
  foldl (fun all timeframe =>
           attach_scan (length all) symbol timeframe orderbook all)
        all timeframes.

Section Pipeline.

Context {W : Type} (env : Env W) (pd : PandasSort) (lib : ta.Lib).
Context (symbols timeframes : list string).

(** The body of the loop of [fetch_historical_ohlcv]: unpack the item,
    convert its timestamp, build the candle. *)
Definition candle_of_item (symbol timeframe : string) (item : raw RawCandle)
  : outcome OHLCV :=
  '(timestamp, open_price, high, low, close, volume) ← unpack item;
  datetime ← datetime_fromtimestamp env timestamp;
  Ok (mkOHLCV timestamp datetime open_price high low close volume
              symbol timeframe).

(** [ExchangeService.fetch_historical_ohlcv]: the request and the loop are
    inside one [try]; an exception in either gives the empty list. *)
Definition fetch_historical_ohlcv (symbol timeframe : string) (limit : nat)
  : M W (list OHLCV) :=
  try_except
    (ohlcv_data ← fetch_ohlcv env symbol timeframe limit;
     call (fun _ => mapM (candle_of_item symbol timeframe) ohlcv_data))
    (fun _ => mret []).

(** [OrderBookLevel(price=price, amount=amount) for price, amount in ...] *)
Definition level_of_item (item : raw (float * float)) : outcome OrderBookLevel :=
  '(price, amount) ← unpack item;
  Ok (mkOrderBookLevel price amount).

(** [orderbook_data.get('timestamp', default)]: the default only when the
    key is missing; a [None] under the key is returned as it is. *)
Definition get_timestamp (orderbook_data : RawOrderBook) (default : Z)
  : option Z :=
  match raw_timestamp orderbook_data with
  | StampMissing => Some default
  | StampNone => None
  | StampMs ms => Some ms
  end.

(** [timestamp / 1000] raises [TypeError] on [None]. *)
Definition stamp_or_raise (timestamp : option Z) : outcome Z :=
  match timestamp with
  | Some ms => Ok ms
  | None => Raise (OtherError "TypeError")
  end.

(** [ExchangeService.fetch_orderbook]: the request, the two comprehensions
    and the construction of the book are inside one [try]; an exception in
    any of them gives [None]. *)
Definition fetch_orderbook (symbol : string) (limit : nat)
  : M W (option OrderBook) :=
  try_except
    (orderbook_data ← fetch_order_book env symbol limit;
     default ← call (fun w => Ok (time_ms env w));
     call (fun _ =>
       let timestamp := get_timestamp orderbook_data default in
       bids ← mapM level_of_item (raw_bids orderbook_data);
       asks ← mapM level_of_item (raw_asks orderbook_data);
       ms ← stamp_or_raise timestamp;
       datetime ← datetime_fromtimestamp env ms;
       Ok (Some (mkOrderBook ms datetime symbol bids asks))))
    (fun _ => mret None).

(** [DataStorage.save_to_csv]: the frame goes to the file as it is. *)
Definition save_to_csv (data_df : list pydict) : M W bool :=
  match data_df with
  | [] => mret false
  | _ :: _ =>
      try_except (to_csv env data_df;; mret true) (fun _ => mret false)
  end.

(** [DataStorage.save_market_data_list] *)
Definition save_market_data_list (market_data_list : list MarketData)
  : M W bool :=
  match market_data_list with
  | [] => mret false
  | _ :: _ =>
      data ← call (fun _ => mapM to_dict market_data_list);
      save_to_csv data
  end.

(** [DataStorage.append_to_dataset] *)
Definition append_to_dataset (market_data_list : list MarketData) : M W bool :=
  save_market_data_list market_data_list.

(** The body of the inner loop of [collect_data] (progress display and the
    pause between requests have no effect on the data). *)
Definition collect_pair (symbol timeframe : string) : M (Run W) unit :=
  ohlcv_data ← in_world (fetch_historical_ohlcv symbol timeframe 1000);
  match ohlcv_data with
  | [] => mret tt
  | _ :: _ =>
      market_data_list ←
        call (fun _ => process_ohlcv_with_indicators pd lib ohlcv_data);
      modify (fun r => mkRun (world r) (all_market_data r ++ market_data_list))
  end.

(** The body of the outer loop of [collect_data]. *)
Definition collect_symbol (symbol : string) : M (Run W) unit :=
  for_each timeframes (collect_pair symbol);;
  orderbook ← in_world (fetch_orderbook symbol 20);
  match orderbook with
  | Some orderbook =>
      modify (fun r =>
                mkRun (world r)
                      (attach_orderbook symbol timeframes orderbook
                                        (all_market_data r)))
  | None => mret tt
  end.

(** The collection loop of [collect_data]. *)
Definition collect_records : M (Run W) unit :=
  for_each symbols collect_symbol.

(** [DataCollector.collect_data] *)
Definition collect_data : M W bool :=
  fun w =>
    let '(o, r) :=
      try_except
        (collect_records;;
         all ← call (fun r => Ok (all_market_data r));
         match all with
         | _ :: _ =>
             success ← in_world (append_to_dataset all);
             if success : bool then mret true else mret false
         | [] => mret false
         end)
        (fun _ => mret false)
        (mkRun w []) in
    (o, world r).

End Pipeline.

(** ** Flattened rows: the parts [to_dict] is made of *)

Definition base_part (c : OHLCV) : pydict :=
  [ ("timestamp", VInt (ohlcv_timestamp c));
    ("datetime", VDatetime (ohlcv_datetime c));
    ("symbol", VStr (ohlcv_symbol c));
    ("timeframe", VStr (ohlcv_timeframe c));
    ("open", VFloat (ohlcv_open c));
    ("high", VFloat (ohlcv_high c));
    ("low", VFloat (ohlcv_low c));
    ("close", VFloat (ohlcv_close c));
    ("volume", VFloat (ohlcv_volume c)) ].

Definition indicator_part (t : TechnicalIndicators) : pydict :=
  map (fun f => (field_name f, optional_float (ti_get f t))) all_ind_fields.

Definition best_part (ob : OrderBook) : pydict :=
  [ ("best_bid_price", best_price (bids ob));
    ("best_bid_amount", best_amount (bids ob));
    ("best_ask_price", best_price (asks ob));
    ("best_ask_amount", best_amount (asks ob)) ].

Definition spread_part (a0 b0 : OrderBookLevel) : pydict :=
  [ ("spread", VFloat (price a0 - price b0)%float);
    ("spread_percent",
     VFloat ((price a0 - price b0) / price b0 * 100)%float) ].

(** The record of testable property 5: best bid 100.0, best ask 100.5. *)
Definition candle0 : OHLCV :=
  mkOHLCV 1 (fromtimestamp_ms 1) 100 101 99 100.25 10 "BTC/USDT" "1h".

Definition no_indicators (c : OHLCV) : TechnicalIndicators :=
  mkTechnicalIndicators
    (ohlcv_symbol c) (ohlcv_timeframe c) (ohlcv_timestamp c) (ohlcv_datetime c)
    None None None None None None None None None None None None None None.

Definition book (bids asks : list OrderBookLevel) : OrderBook :=
  mkOrderBook 1 (fromtimestamp_ms 1) "BTC/USDT" bids asks.

Definition record_with (ob : option OrderBook) : MarketData :=
  mkMarketData candle0 (no_indicators candle0) ob.

Definition quoted_record : MarketData :=
  record_with (Some (book [mkOrderBookLevel 100 2] [mkOrderBookLevel 100.5 3])).

Definition no_bids_record : MarketData :=
  record_with (Some (book [] [mkOrderBookLevel 100.5 3])).

Definition no_asks_record : MarketData :=
  record_with (Some (book [mkOrderBookLevel 100 2] [])).

Definition zero_bid_record : MarketData :=
  record_with (Some (book [mkOrderBookLevel 0 2] [mkOrderBookLevel 100.5 3])).

(** ** Notions used to state the properties of the engine *)

(** The library result that [calculate_indicators] stores in the column of
    field [f], as a function of the frame the [try] block runs on. *)
Definition lib_series (lib : ta.Lib) (f : ind_field) (df : DataFrame)
  : outcome Series :=
  match f with
  | F_sma_20 => ta.sma_indicator lib (col_close df) 20
  | F_sma_50 => ta.sma_indicator lib (col_close df) 50
  | F_sma_200 => ta.sma_indicator lib (col_close df) 200
  | F_ema_12 => ta.ema_indicator lib (col_close df) 12
  | F_ema_26 => ta.ema_indicator lib (col_close df) 26
  | F_macd => ta.MACD_new lib (col_close df) 26 12 9 ≫= ta.macd
  | F_macd_signal => ta.MACD_new lib (col_close df) 26 12 9 ≫= ta.macd_signal
  | F_macd_hist => ta.MACD_new lib (col_close df) 26 12 9 ≫= ta.macd_diff
  | F_rsi_14 => ta.rsi lib (col_close df) 14
  | F_bb_upper =>
      ta.BollingerBands_new lib (col_close df) 20 2 ≫= ta.bollinger_hband
  | F_bb_middle =>
      ta.BollingerBands_new lib (col_close df) 20 2 ≫= ta.bollinger_mavg
  | F_bb_lower =>
      ta.BollingerBands_new lib (col_close df) 20 2 ≫= ta.bollinger_lband
  | F_atr_14 =>
      ta.average_true_range lib (col_high df) (col_low df) (col_close df) 14
  | F_obv => ta.on_balance_volume lib (col_close df) (col_volume df)
  end.


Definition row_timestamp (r : Row) : Z := ohlcv_timestamp (row_ohlcv r).

(** The frame the [try] block of [calculate_indicators] runs on when
    [calculate_technical_indicators] is given [ohlcv_list]: sorted once by
    [ohlcv_to_dataframe] and once more by [calculate_indicators]. *)
Definition engine_frame (pd : PandasSort) (ohlcv_list : list OHLCV) : DataFrame :=
  sort_values pd by_timestamp (ohlcv_to_dataframe pd ohlcv_list).

(** [columns_from lib df0 df]: [df] is [df0] with indicator columns added,
    each cell of the column of [f] being the library's value for that row. *)
Definition columns_from (lib : ta.Lib) (df0 df : DataFrame) : Prop :=
  map row_ohlcv df = map row_ohlcv df0
  /\ forall (f : ind_field) (i : nat) (r : Row),
       df !! i = Some r ->
       row_float (field_name f) r = None
       \/ exists col : Series,
            lib_series lib f df0 = Ok col
            /\ row_float (field_name f) r = Some (nth i col nan).

(** A statement sequence keeps [I] when the state it leaves satisfies [I],
    whether it returned or raised. *)
Definition keeps {S A} (I : S -> Prop) (m : M S A) : Prop :=
  forall s : S, I s -> I (m s).2.

(** Index [i] holds the last record of the pair in the accumulated list. *)
Definition last_of_pair (symbol timeframe : string) (all : list MarketData)
    (i : nat) : Prop :=
  (exists md, all !! i = Some md /\ is_pair symbol timeframe md = true)
  /\ forall j md, (i < j)%nat -> all !! j = Some md ->
                  is_pair symbol timeframe md = false.

(** The records of the pair appear in ascending timestamp order. *)
Definition pair_ascending (symbol timeframe : string) (all : list MarketData)
  : Prop :=
  forall j k mdj mdk, (j < k)%nat ->
    all !! j = Some mdj -> all !! k = Some mdk ->
    is_pair symbol timeframe mdj = true ->
    is_pair symbol timeframe mdk = true ->
    ohlcv_timestamp (ohlcv mdj) <= ohlcv_timestamp (ohlcv mdk).

(** [later] is [all] with the order book assigned to some of its records
    and nothing else changed. *)
Definition attached_from (ob : OrderBook) (all later : list MarketData) : Prop :=
  length later = length all
  /\ forall i md, all !! i = Some md ->
       later !! i = Some md \/ later !! i = Some (set_order_book ob md).

(** Candles of one (symbol, timeframe) pair. *)
Definition single_pair (symbol timeframe : string) (l : list OHLCV) : Prop :=
  Forall (fun c => ohlcv_symbol c = symbol /\ ohlcv_timeframe c = timeframe) l.

(** ** A reference instance of the [ta] interface

    Rolling and exponentially weighted windows in the pandas manner with
    [min_periods = window]: positions before the window is full hold [nan].
    The true-range average indexes position [window - 1] of its buffer and
    so raises [IndexError] on a shorter series.  The instance serves to run
    the engine on examples; the theorems about the engine hold for every
    instance. *)
Module ref.

Definition nat_to_float (n : nat) : float :=
  PrimFloat.of_uint63 (Uint63.of_Z (Z.of_nat n)).

Definition fsum (xs : Series) : float := fold_left PrimFloat.add xs 0%float.

Definition mean (xs : Series) : float :=
  (fsum xs / nat_to_float (length xs))%float.

Definition pstd (xs : Series) : float :=
  let m := mean xs in
  PrimFloat.sqrt (mean (map (fun x => ((x - m) * (x - m))%float) xs)).

Definition fmax (x y : float) : float := if PrimFloat.ltb x y then y else x.

Definition mask (k : nat) (xs : Series) : Series :=
  imap (fun i x => if (i <? k)%nat then nan else x) xs.

Definition rolling (w : nat) (agg : Series -> float) (xs : Series) : Series :=
  imap (fun i _ =>
          if (i + 1 <? w)%nat then nan
          else agg (take w (drop (i + 1 - w) xs))) xs.

Fixpoint ewm (alpha prev : float) (xs : Series) : Series :=
  match xs with
  | [] => []
  | x :: xs' =>
      let y := (alpha * x + (1 - alpha) * prev)%float in
      y :: ewm alpha y xs'
  end.

Definition ewm_mean (alpha : float) (xs : Series) : Series :=
  match xs with
  | [] => []
  | x0 :: rest => x0 :: ewm alpha x0 rest
  end.

Definition span (w : nat) : float := (2 / (nat_to_float w + 1))%float.

Definition sma (close : Series) (w : nat) : Series := rolling w mean close.

Definition ema (close : Series) (w : nat) : Series :=
  mask (w - 1) (ewm_mean (span w) close).

Definition sub_series (xs ys : Series) : Series :=
  zip_with PrimFloat.sub xs ys.

Definition MACD_new (close : Series) (slow fast sign : nat) : outcome ta.MACD :=
  let line := sub_series (ema close fast) (ema close slow) in
  let signal :=
    take (length close)
         (replicate (slow - 1) nan
          ++ mask (sign - 1) (ewm_mean (span sign) (drop (slow - 1) line))) in
  Ok (ta.mkMACD (Ok line) (Ok signal) (Ok (sub_series line signal))).

Definition rsi (close : Series) (w : nat) : Series :=
  let diff := 0%float :: sub_series (tail close) close in
  let up := map (fun d => fmax d 0) diff in
  let dn := map (fun d => fmax (- d) 0) diff in
  let alpha := (1 / nat_to_float w)%float in
  mask (w - 1)
    (zip_with
       (fun u d =>
          if PrimFloat.eqb d 0 then 100%float
          else (100 - 100 / (1 + u / d))%float)
       (ewm_mean alpha up) (ewm_mean alpha dn)).

Definition BollingerBands_new (close : Series) (w dev : nat)
  : outcome ta.BollingerBands :=
  let mavg := rolling w mean close in
  let width := map (fun s => (nat_to_float dev * s)%float) (rolling w pstd close) in
  Ok (ta.mkBollingerBands
        (Ok (zip_with PrimFloat.add mavg width))
        (Ok mavg)
        (Ok (sub_series mavg width))).

Definition true_range (high low close : Series) : Series :=
  let prev := match close with [] => [] | c0 :: _ => c0 :: close end in
  zip_with (fun hl p => let '(h, l) := hl in
              fmax (h - l) (fmax (PrimFloat.abs (h - p)) (PrimFloat.abs (l - p))))
           (zip high low) prev.

Fixpoint wilder (w prev : float) (trs : Series) : Series :=
  match trs with
  | [] => []
  | t :: trs' =>
      let a := ((prev * (w - 1) + t) / w)%float in
      a :: wilder w a trs'
  end.

Definition average_true_range (high low close : Series) (w : nat)
  : outcome Series :=
  if (length close <? w)%nat then Raise IndexError
  else
    let tr := true_range high low close in
    let first := mean (take w tr) in
    Ok (replicate (w - 1) 0%float
        ++ first :: wilder (nat_to_float w) first (drop w tr)).

Fixpoint running_sum (acc : float) (xs : Series) : Series :=
  match xs with
  | [] => []
  | x :: xs' => let acc := (acc + x)%float in acc :: running_sum acc xs'
  end.

Definition on_balance_volume (close volume : Series) : Series :=
  let prev := match close with [] => [] | c0 :: _ => c0 :: close end in
  running_sum 0
    (zip_with (fun cp v => let '(c, p) := cp in
                 if PrimFloat.ltb c p then (- v)%float else v)
              (zip close prev) volume).

Definition lib : ta.Lib :=
  ta.mkLib
    (fun close w => Ok (sma close w))
    (fun close w => Ok (ema close w))
    MACD_new
    (fun close w => Ok (rsi close w))
    BollingerBands_new
    average_true_range
    (fun close volume => Ok (on_balance_volume close volume)).

(** A sorting routine meeting the [sort_values] contract. *)
Definition merge_sort_by (A : Type) (leb : A -> A -> bool) (l : list A)
  : list A :=
  @merge_sort A (fun x y => leb x y = true)
              (fun x y => decide (leb x y = true)) l.

End ref.

Definition ref_sort : PandasSort :=
  mkPandasSort ref.merge_sort_by
    (fun A leb l => merge_sort_Permutation _ l)
    (fun A leb l Htot => Sorted_merge_sort _ (Total0 := Htot) l).

(** Three hourly candles (timestamps 1, 2, 3), given out of order. *)
Definition candle_at (ts : Z) (close : float) : OHLCV :=
  mkOHLCV ts (fromtimestamp_ms ts) close (close + 1) (close - 1) close 10
          "BTC/USDT" "1h".

Definition three_candles : list OHLCV :=
  [candle_at 1 100; candle_at 2 101; candle_at 3 102].

Definition three_candles_shuffled : list OHLCV :=
  [candle_at 3 102; candle_at 1 100; candle_at 2 101].

(** The stamps [datetime.fromtimestamp] accepts where the local time is
    UTC: from 0001-01-02 (the conversion probes one day back) to the end of
    the year 9999. *)
Definition utc_datetime_range (ms : Z) : bool :=
  (-62135510400000 <=? ms) && (ms <=? 253402300799999).

(** ** Test doubles for the external collaborators

    An exchange that answers from tables, and a sink that records the
    batches it is handed: the world is the list of batches written. *)
Definition table_env
    (candles : string -> string -> outcome (list (raw RawCandle)))
    (book : string -> outcome RawOrderBook) : Env (list (list pydict)) :=
  mkEnv (fun symbol timeframe _ => call (fun _ => candles symbol timeframe))
        (fun symbol _ => call (fun _ => book symbol))
        (fun rows => modify (fun w => w ++ [rows]))
        (fun _ => 0)
        utc_datetime_range.

Definition raw_candle (ts : Z) (close : float) : raw RawCandle :=
  WellFormed (ts, close, (close + 1)%float, (close - 1)%float, close, 10%float).

Definition quoted_book (symbol : string) : outcome RawOrderBook :=
  Ok (mkRawOrderBook (StampMs 5) [WellFormed (100, 2)%float]
                     [WellFormed (100.5, 3)%float]).

(** The exchange hands the two candles of BTC/USDT 1h newest first. *)
Definition newest_first_env : Env (list (list pydict)) :=
  table_env (fun _ _ => Ok [raw_candle 2 101; raw_candle 1 100]) quoted_book.

(** One candle per pair, as with the default configuration
    [SYMBOLS = BTC/USDT,ETH/USDT] and [TIMEFRAMES = 1h,4h,1d]. *)
Definition one_candle_env : Env (list (list pydict)) :=
  table_env (fun _ _ => Ok [raw_candle 1 100]) quoted_book.

Definition default_symbols : list string := ["BTC/USDT"; "ETH/USDT"].
Definition default_timeframes : list string := ["1h"; "4h"; "1d"].

(** Whether a record carries an order book, next to its timestamp. *)
Definition stamp_and_book (md : MarketData) : Z * bool :=
  (ohlcv_timestamp (ohlcv md),
   match order_book_snapshot md with Some _ => true | None => false end).

(** Two accumulated records of BTC/USDT 1h in ascending order. *)
Definition two_records : list MarketData :=
  [ mkMarketData (candle_at 1 100) (no_indicators (candle_at 1 100)) None;
    mkMarketData (candle_at 2 101) (no_indicators (candle_at 2 101)) None ].

Definition rows_sorted (rows : list pydict) : Prop :=
  Sorted (fun r1 r2 => by_symbol_timeframe_timestamp r1 r2 = true) rows.

(** An indicator set computed for another pair and another timestamp. *)
Definition foreign_indicators : TechnicalIndicators :=
  no_indicators
    (mkOHLCV 7 (fromtimestamp_ms 7) 1 1 1 1 1 "ETH/USDT" "4h").

Definition quoted_row : pydict :=
  Eval vm_compute in
    match to_dict quoted_record with Ok row => row | Raise _ => [] end.

(** ** Notions used for the further properties of the code *)

#[global] Instance ind_field_eq_dec : EqDecision ind_field.
Proof. solve_decision. Defined.

(** The indicator fields in the order [calculate_indicators] assigns their
    columns (the relative strength index comes after the MACD lines). *)
Definition assignment_order : list ind_field :=
  [F_sma_20; F_sma_50; F_sma_200; F_ema_12; F_ema_26;
   F_macd; F_macd_signal; F_macd_hist; F_rsi_14;
   F_bb_upper; F_bb_middle; F_bb_lower; F_atr_14; F_obv].

(** The fields of [fields] before the first one whose library call raises on
    [df0], each with the series the library returned. *)
Fixpoint ok_columns (lib : ta.Lib) (df0 : DataFrame) (fields : list ind_field)
  : list (ind_field * Series) :=
  match fields with
  | [] => []
  | f :: fields' =>
      match lib_series lib f df0 with
      | Ok col => (f, col) :: ok_columns lib df0 fields'
      | Raise _ => []
      end
  end.

(** Assigning a list of columns, one after the other. *)
Definition set_columns (cols : list (ind_field * Series)) (df : DataFrame)
  : DataFrame :=
  foldl (fun df fc => set_column (field_name fc.1) fc.2 df) df cols.

(** The field [f] and the fields after it in [fields]. *)
Fixpoint from_field (f : ind_field) (fields : list ind_field) : list ind_field :=
  match fields with
  | [] => []
  | g :: fields' => if decide (g = f) then g :: fields' else from_field f fields'
  end.

(** The raw item a candle was built from, and the raw level of a book. *)
Definition candle_raw (c : OHLCV) : raw RawCandle :=
  WellFormed (ohlcv_timestamp c, ohlcv_open c, ohlcv_high c, ohlcv_low c,
              ohlcv_close c, ohlcv_volume c).

Definition level_raw (l : OrderBookLevel) : raw (float * float) :=
  WellFormed (price l, amount l).

(** A raw candle the loop of [fetch_historical_ohlcv] gets through: it is
    well formed and its timestamp converts to a datetime. *)
Definition candle_ok {W} (env : Env W) (item : raw RawCandle) : bool :=
  match item with
  | WellFormed (timestamp, _, _, _, _, _) => datetime_range env timestamp
  | Malformed => false
  end.

Definition well_formed {A} (item : raw A) : bool :=
  match item with
  | WellFormed _ => true
  | Malformed => false
  end.

(** A raw order book [fetch_orderbook] gets through, when the clock reads
    [now]: every level is well formed, and the timestamp (the clock's when
    the key is missing) is a number that converts to a datetime. *)
Definition book_ok {W} (env : Env W) (now : Z) (orderbook_data : RawOrderBook)
  : bool :=
  forallb well_formed (raw_bids orderbook_data)
  && forallb well_formed (raw_asks orderbook_data)
  && match get_timestamp orderbook_data now with
     | Some ms => datetime_range env ms
     | None => false
     end.

(** A statement sequence that, started in a state satisfying [I], returns
    normally in a state satisfying [I]. *)
Definition runs {S} (I : S -> Prop) (m : M S unit) : Prop :=
  forall s : S, I s -> exists s' : S, m s = (Ok tt, s') /\ I s'.

(** What holds of every record a run accumulates. *)
Definition record_ok (symbols timeframes : list string) (md : MarketData)
  : Prop :=
  ohlcv_symbol (ohlcv md) ∈ symbols
  /\ ohlcv_timeframe (ohlcv md) ∈ timeframes
  /\ ti_key (indicators md) = ohlcv_key (ohlcv md)
  /\ forall ob, order_book_snapshot md = Some ob ->
       ob_symbol ob = ohlcv_symbol (ohlcv md).

(** Fourteen hourly candles, enough for every window of the reference
    library but the longer moving averages. *)
Definition fourteen_candles : list OHLCV :=
  map (fun n => candle_at (Z.of_nat n) (ref.nat_to_float (100 + n)))
      (seq 1 14).

(** The exchange hands two candles, the second with a timestamp in the
    year 10000. *)
Definition late_candle_env : Env (list (list pydict)) :=
  table_env (fun _ _ => Ok [raw_candle 1 100; raw_candle 253402300800000 101])
            quoted_book.

(** The exchange hands an order book whose timestamp is [None]. *)
Definition unstamped_book_env : Env (list (list pydict)) :=
  table_env (fun _ _ => Ok [raw_candle 1 100])
            (fun _ => Ok (mkRawOrderBook StampNone [WellFormed (100, 2)%float]
                                         [WellFormed (100.5, 3)%float])).

(** An exchange whose every request fails. *)
Definition failing_env : Env (list (list pydict)) :=
  table_env (fun _ _ => Raise NetworkError) (fun _ => Raise NetworkError).

(** ** [ExchangeService.fetch_all_data_for_symbols]

    The nested dict [result] grows while the exchange is queried: the loops
    run over the world together with the dict built so far. *)
Record Fetching (W : Type) : Type := mkFetching {
  exchange_world : W;
  result : gmap string (gmap string (list OHLCV))
}.
Arguments mkFetching {W} _ _.
Arguments exchange_world {W} _.
Arguments result {W} _.

Definition in_exchange {W A} (m : M W A) : M (Fetching W) A :=
  fun s =>
    let '(o, w) := m (exchange_world s) in
    (o, mkFetching w (result s)).

(** [result[symbol] = {}] *)
Definition reset_symbol {W} (symbol : string) : M (Fetching W) unit :=
  modify (fun s => mkFetching (exchange_world s) (<[symbol := ∅]> (result s))).

(** [result[symbol][timeframe] = data]; the subscript [result[symbol]]
    raises [KeyError] on a missing key. *)
Definition store_candles {W} (symbol timeframe : string) (data : list OHLCV)
  : M (Fetching W) unit :=
  fun s =>
    match result s !! symbol with
    | Some inner =>
        (Ok tt, mkFetching (exchange_world s)
                           (<[symbol := <[timeframe := data]> inner]> (result s)))
    | None => (Raise (OtherError "KeyError"), s)
    end.

Definition fetch_all_data_for_symbols {W} (env : Env W)
    (symbols timeframes : list string)
  : M W (gmap string (gmap string (list OHLCV))) :=
  fun w =>
    let '(o, s) :=
      for_each symbols (fun symbol =>
        reset_symbol symbol;;
        for_each timeframes (fun timeframe =>
          data ← in_exchange (fetch_historical_ohlcv env symbol timeframe 1000);
          store_candles symbol timeframe data))
        (mkFetching w ∅) in
    (match o with Ok _ => Ok (result s) | Raise e => Raise e end,
     exchange_world s).

(** * Properties of [MarketData.to_dict] *)

Lemma to_dict_unfold (md : MarketData) :
  to_dict md =
  let flat rest :=
    base_part (ohlcv md) ++ indicator_part (indicators md) ++ rest in
  match order_book_snapshot md with
  | None => Ok (flat [])
  | Some ob =>
      match asks ob, bids ob with
      | a0 :: _, b0 :: _ =>
          if PrimFloat.eqb (price b0) 0
          then Raise ZeroDivisionError
          else Ok (flat (best_part ob ++ spread_part a0 b0))
      | _, _ => Ok (flat (best_part ob))
      end
  end.
Proof.
  destruct md as [c t [[ts dt sym bs as_]|]]; [|reflexivity].
  destruct as_ as [|a0 as_], bs as [|b0 bs]; try reflexivity.
  unfold to_dict, py_truediv; cbn [order_book_snapshot asks bids].
  destruct (PrimFloat.eqb (price b0) 0); reflexivity.
Qed.

Lemma dict_keys_base_part (c : OHLCV) : dict_keys (base_part c) = base_columns.
Proof. reflexivity. Qed.

Lemma dict_keys_indicator_part (t : TechnicalIndicators) :
  dict_keys (indicator_part t) = indicator_columns.
Proof. reflexivity. Qed.

Lemma dict_keys_app (d1 d2 : pydict) :
  dict_keys (d1 ++ d2) = dict_keys d1 ++ dict_keys d2.
Proof. apply map_app. Qed.

Lemma dict_get_flat_field (c : OHLCV) (t : TechnicalIndicators) (rest : pydict)
    (f : ind_field) :
  dict_get (field_name f) (base_part c ++ indicator_part t ++ rest)
  = Some (optional_float (ti_get f t)).
Proof. destruct f; reflexivity. Qed.

(** C8: a flattened row starts with the nine candle columns in the stated
    order, continues with every indicator field (an absent field is the
    null marker [None], never zero) and ends with order-book columns, which
    appear only when a snapshot is present; with both sides quoted they are
    the six stated columns in order. *)
Theorem to_dict_columns (md : MarketData) (row : pydict) :
  to_dict md = Ok row ->
  exists ob_part : pydict,
    row = base_part (ohlcv md) ++ indicator_part (indicators md) ++ ob_part
    /\ dict_keys row
       = base_columns ++ indicator_columns ++ dict_keys ob_part
    /\ (forall f : ind_field,
          dict_get (field_name f) row
          = Some (optional_float (ti_get f (indicators md))))
    /\ (forall f : ind_field,
          ti_get f (indicators md) = None ->
          dict_get (field_name f) row = Some VNone)
    /\ (order_book_snapshot md = None -> ob_part = [])
    /\ (forall ob, order_book_snapshot md = Some ob ->
          bids ob <> [] -> asks ob <> [] ->
          dict_keys ob_part = order_book_columns)
    /\ dict_keys ob_part `prefix_of` order_book_columns.
Proof.
  rewrite to_dict_unfold; cbn zeta; intros Hrow.
  assert (Hgen : forall ob_part,
    row = base_part (ohlcv md) ++ indicator_part (indicators md) ++ ob_part ->
    row = base_part (ohlcv md) ++ indicator_part (indicators md) ++ ob_part
    /\ dict_keys row = base_columns ++ indicator_columns ++ dict_keys ob_part
    /\ (forall f, dict_get (field_name f) row
                  = Some (optional_float (ti_get f (indicators md))))
    /\ (forall f, ti_get f (indicators md) = None ->
                  dict_get (field_name f) row = Some VNone)).
  { intros ob_part ->. split; [done|]. split.
    - by rewrite !dict_keys_app.
    - split; [apply dict_get_flat_field|].
      intros f Hf. by rewrite dict_get_flat_field, Hf. }
  destruct (order_book_snapshot md) as [ob|] eqn:Hob.
  - destruct (asks ob) as [|a0 as_] eqn:Ha, (bids ob) as [|b0 bs] eqn:Hb.
    1-3: injection Hrow as <-; exists (best_part ob);
      destruct (Hgen (best_part ob)) as (?&?&?&?); [done|];
      repeat split; try done;
      [ intros ob' [= <-]; congruence
      | by exists ["spread"; "spread_percent"] ].
    destruct (PrimFloat.eqb (price b0) 0); [done|].
    injection Hrow as <-. exists (best_part ob ++ spread_part a0 b0).
    destruct (Hgen (best_part ob ++ spread_part a0 b0)) as (?&?&?&?); [done|].
    repeat split; done.
  - injection Hrow as <-. exists [].
    destruct (Hgen []) as (?&?&?&?); [done|].
    repeat split; try done. by exists order_book_columns.
Qed.

Lemma to_dict_columns_witness :
  to_dict quoted_record = Ok quoted_row
  /\ exists ob_part : pydict,
    quoted_row = base_part (ohlcv quoted_record)
                 ++ indicator_part (indicators quoted_record) ++ ob_part
    /\ dict_keys quoted_row
       = base_columns ++ indicator_columns ++ dict_keys ob_part
    /\ (forall f : ind_field,
          dict_get (field_name f) quoted_row
          = Some (optional_float (ti_get f (indicators quoted_record))))
    /\ (forall f : ind_field,
          ti_get f (indicators quoted_record) = None ->
          dict_get (field_name f) quoted_row = Some VNone)
    /\ (order_book_snapshot quoted_record = None -> ob_part = [])
    /\ (forall ob, order_book_snapshot quoted_record = Some ob ->
          bids ob <> [] -> asks ob <> [] ->
          dict_keys ob_part = order_book_columns)
    /\ dict_keys ob_part `prefix_of` order_book_columns.
Proof.
  split; [reflexivity|].
  apply (to_dict_columns quoted_record quoted_row). reflexivity.
Defined.

(** With one side of the book empty the four [best_*] keys are still written
    (the empty side as [None]); only [spread] and [spread_percent] are left
    out. *)
Lemma to_dict_one_sided (md : MarketData) (ob : OrderBook) :
  order_book_snapshot md = Some ob ->
  bids ob = [] \/ asks ob = [] ->
  to_dict md
  = Ok (base_part (ohlcv md) ++ indicator_part (indicators md) ++ best_part ob).
Proof.
  intros Hob Hside. rewrite to_dict_unfold, Hob; cbn zeta.
  destruct Hside as [-> | ->]; [by destruct (asks ob)|done].
Qed.

Lemma dict_get_best (c : OHLCV) (t : TechnicalIndicators) (ob : OrderBook)
    (rest : pydict) :
  let row := base_part c ++ indicator_part t ++ best_part ob ++ rest in
  dict_get "best_bid_price" row = Some (best_price (bids ob))
  /\ dict_get "best_bid_amount" row = Some (best_amount (bids ob))
  /\ dict_get "best_ask_price" row = Some (best_price (asks ob))
  /\ dict_get "best_ask_amount" row = Some (best_amount (asks ob)).
Proof. repeat split; reflexivity. Qed.

(** C2 (as the code has it): with a snapshot present and an empty bids
    (respectively asks) list, the row still carries [best_bid_price] and
    [best_bid_amount] (respectively [best_ask_*]) with the value [None], the
    other side's [best_*] columns carry that side's first level, and only
    [spread] and [spread_percent] are missing from the row. *)
Theorem to_dict_empty_side (md : MarketData) (ob : OrderBook) :
  order_book_snapshot md = Some ob ->
  bids ob = [] \/ asks ob = [] ->
  exists row : pydict,
    to_dict md = Ok row
    /\ dict_keys row
       = base_columns ++ indicator_columns
         ++ ["best_bid_price"; "best_bid_amount";
             "best_ask_price"; "best_ask_amount"]
    /\ (bids ob = [] ->
        dict_get "best_bid_price" row = Some VNone
        /\ dict_get "best_bid_amount" row = Some VNone)
    /\ (asks ob = [] ->
        dict_get "best_ask_price" row = Some VNone
        /\ dict_get "best_ask_amount" row = Some VNone)
    /\ dict_get "best_bid_price" row = Some (best_price (bids ob))
    /\ dict_get "best_bid_amount" row = Some (best_amount (bids ob))
    /\ dict_get "best_ask_price" row = Some (best_price (asks ob))
    /\ dict_get "best_ask_amount" row = Some (best_amount (asks ob))
    /\ dict_get "spread" row = None
    /\ dict_get "spread_percent" row = None.
Proof.
  intros Hob Hside. eexists. split; [by apply to_dict_one_sided|].
  pose proof (dict_get_best (ohlcv md) (indicators md) ob []) as Hbest.
  cbn zeta in Hbest. rewrite app_nil_r in Hbest.
  destruct Hbest as (Hbp & Hba & Hap & Haa).
  split; [reflexivity|].
  split; [intros Hb; rewrite Hbp, Hba, Hb; done|].
  split; [intros Ha; rewrite Hap, Haa, Ha; done|].
  repeat split; done.
Qed.

Lemma to_dict_empty_side_witness :
  exists row : pydict,
    to_dict no_asks_record = Ok row
    /\ dict_get "best_ask_price" row = Some VNone
    /\ dict_get "best_bid_price" row = Some (VFloat 100)
    /\ dict_get "spread" row = None.
Proof.
  destruct (to_dict_empty_side no_asks_record
              (book [mkOrderBookLevel 100 2] []) eq_refl (or_intror eq_refl))
    as (row & Hrow & _ & _ & Hasks & Hbid & _ & _ & _ & Hspread & _).
  exists row. split; [exact Hrow|].
  split; [exact (proj1 (Hasks eq_refl))|].
  split; [exact Hbid | exact Hspread].
Defined.

(** C2 (as stated) fails: with an empty bids list the [best_bid_price] key is
    in the row, holding [None], and the ask columns are there as well. *)
Lemma to_dict_no_bids_keeps_columns :
  order_book_snapshot no_bids_record
  = Some (book [] [mkOrderBookLevel 100.5 3])
  /\ exists row : pydict,
    to_dict no_bids_record = Ok row
    /\ dict_has "best_bid_price" row = true
    /\ dict_get "best_bid_price" row = Some VNone
    /\ dict_has "best_bid_amount" row = true
    /\ dict_has "best_ask_price" row = true
    /\ dict_has "best_ask_amount" row = true.
Proof. split; [reflexivity|]. eexists. repeat split; reflexivity. Qed.

Lemma dict_get_spread (c : OHLCV) (t : TechnicalIndicators) (ob : OrderBook)
    (a0 b0 : OrderBookLevel) :
  let row := base_part c ++ indicator_part t ++ best_part ob ++ spread_part a0 b0 in
  dict_get "spread" row = Some (VFloat (price a0 - price b0)%float)
  /\ dict_get "spread_percent" row
     = Some (VFloat ((price a0 - price b0) / price b0 * 100)%float).
Proof. split; reflexivity. Qed.

Lemma to_dict_two_sided (md : MarketData) (ob : OrderBook)
    (a0 b0 : OrderBookLevel) (asks' bids' : list OrderBookLevel) :
  order_book_snapshot md = Some ob ->
  asks ob = a0 :: asks' -> bids ob = b0 :: bids' ->
  to_dict md =
  if PrimFloat.eqb (price b0) 0 then Raise ZeroDivisionError
  else Ok (base_part (ohlcv md) ++ indicator_part (indicators md)
           ++ best_part ob ++ spread_part a0 b0).
Proof.
  intros Hob Ha Hb. by rewrite to_dict_unfold, Hob, Ha, Hb.
Qed.

(** C9: with both sides of the book quoted, the row has
    [spread = best_ask_price - best_bid_price] and
    [spread_percent = spread / best_bid_price * 100] in binary64
    arithmetic; for a best bid of 100.0 and a best ask of 100.5 both values
    are 0.5. *)
Theorem to_dict_spread :
  (forall (md : MarketData) (ob : OrderBook) (a0 b0 : OrderBookLevel)
          (asks' bids' : list OrderBookLevel) (row : pydict),
      order_book_snapshot md = Some ob ->
      asks ob = a0 :: asks' -> bids ob = b0 :: bids' ->
      to_dict md = Ok row ->
      dict_get "best_ask_price" row = Some (VFloat (price a0))
      /\ dict_get "best_bid_price" row = Some (VFloat (price b0))
      /\ dict_get "spread" row = Some (VFloat (price a0 - price b0)%float)
      /\ dict_get "spread_percent" row
         = Some (VFloat ((price a0 - price b0) / price b0 * 100)%float))
  /\ (forall (md : MarketData) (ob : OrderBook) (a b : float),
        order_book_snapshot md = Some ob ->
        bids ob = [mkOrderBookLevel 100 a] ->
        asks ob = [mkOrderBookLevel 100.5 b] ->
        exists row : pydict,
          to_dict md = Ok row
          /\ dict_get "spread" row = Some (VFloat 0.5)
          /\ dict_get "spread_percent" row = Some (VFloat 0.5)).
Proof.
  split.
  - intros md ob a0 b0 asks' bids' row Hob Ha Hb.
    rewrite (to_dict_two_sided md ob a0 b0 asks' bids' Hob Ha Hb).
    destruct (PrimFloat.eqb (price b0) 0); [done|].
    intros Hrow.
    assert (row = base_part (ohlcv md) ++ indicator_part (indicators md)
                  ++ best_part ob ++ spread_part a0 b0) as -> by congruence.
    destruct (dict_get_best (ohlcv md) (indicators md) ob (spread_part a0 b0))
      as (Hbp & _ & Hap & _).
    destruct (dict_get_spread (ohlcv md) (indicators md) ob a0 b0) as (Hs & Hp).
    split; [by rewrite Hap, Ha|]. split; [by rewrite Hbp, Hb|]. by split.
  - intros md ob a b Hob Hb Ha.
    rewrite (to_dict_two_sided md ob _ _ [] [] Hob Ha Hb).
    cbn [price]. eexists. split; [reflexivity|].
    apply (dict_get_spread (ohlcv md) (indicators md) ob
             (mkOrderBookLevel 100.5 b) (mkOrderBookLevel 100 a)).
Qed.

Lemma to_dict_spread_witness :
  dict_get "spread" quoted_row = Some (VFloat 0.5)
  /\ dict_get "spread_percent" quoted_row = Some (VFloat 0.5)
  /\ exists row : pydict,
       to_dict quoted_record = Ok row
       /\ dict_get "spread" row = Some (VFloat 0.5)
       /\ dict_get "spread_percent" row = Some (VFloat 0.5).
Proof.
  destruct to_dict_spread as [Hgen Hex].
  destruct (Hgen quoted_record
              (book [mkOrderBookLevel 100 2] [mkOrderBookLevel 100.5 3])
              (mkOrderBookLevel 100.5 3) (mkOrderBookLevel 100 2) [] []
              quoted_row eq_refl eq_refl eq_refl eq_refl)
    as (_ & _ & Hs & Hp).
  split; [exact Hs|]. split; [exact Hp|].
  exact (Hex quoted_record
             (book [mkOrderBookLevel 100 2] [mkOrderBookLevel 100.5 3])
             2%float 3%float eq_refl eq_refl eq_refl).
Defined.

(** C5 (as stated) fails: a best bid price of zero makes [to_dict] raise
    [ZeroDivisionError]; no row is produced at all. *)
Lemma to_dict_zero_bid_raises :
  order_book_snapshot zero_bid_record
  = Some (book [mkOrderBookLevel 0 2] [mkOrderBookLevel 100.5 3])
  /\ to_dict zero_bid_record = Raise ZeroDivisionError
  /\ ~ (exists row : pydict, to_dict zero_bid_record = Ok row).
Proof.
  split; [reflexivity|]. split; [reflexivity|].
  intros [row Hrow]. discriminate Hrow.
Qed.

(** C5 (as the code has it): [to_dict] raises exactly when both sides of the
    book are quoted and the best bid price compares equal to zero, and the
    exception is [ZeroDivisionError]; with a best bid different from zero
    the row is produced and holds the computed [spread_percent]. *)
Theorem to_dict_raises_iff (md : MarketData) :
  (forall e : exn,
      to_dict md = Raise e <->
      e = ZeroDivisionError
      /\ exists (ob : OrderBook) (a0 b0 : OrderBookLevel)
                (asks' bids' : list OrderBookLevel),
           order_book_snapshot md = Some ob
           /\ asks ob = a0 :: asks' /\ bids ob = b0 :: bids'
           /\ PrimFloat.eqb (price b0) 0 = true)
  /\ (forall (ob : OrderBook) (a0 b0 : OrderBookLevel)
             (asks' bids' : list OrderBookLevel),
        order_book_snapshot md = Some ob ->
        asks ob = a0 :: asks' -> bids ob = b0 :: bids' ->
        PrimFloat.eqb (price b0) 0 = false ->
        exists row : pydict,
          to_dict md = Ok row
          /\ dict_get "spread_percent" row
             = Some (VFloat ((price a0 - price b0) / price b0 * 100)%float)).
Proof.
  split.
  - intros e. split.
    + rewrite to_dict_unfold; cbn zeta.
      destruct (order_book_snapshot md) as [ob|] eqn:Hob; [|done].
      destruct (asks ob) as [|a0 asks'] eqn:Ha; [done|].
      destruct (bids ob) as [|b0 bids'] eqn:Hb; [done|].
      destruct (PrimFloat.eqb (price b0) 0) eqn:Hz; [|done].
      intros [= <-]. split; [done|]. by exists ob, a0, b0, asks', bids'.
    + intros (-> & ob & a0 & b0 & asks' & bids' & Hob & Ha & Hb & Hz).
      by rewrite (to_dict_two_sided md ob a0 b0 asks' bids' Hob Ha Hb), Hz.
  - intros ob a0 b0 asks' bids' Hob Ha Hb Hz.
    rewrite (to_dict_two_sided md ob a0 b0 asks' bids' Hob Ha Hb), Hz.
    eexists. split; [reflexivity|].
    apply (dict_get_spread (ohlcv md) (indicators md) ob a0 b0).
Qed.

Lemma to_dict_raises_iff_witness :
  to_dict zero_bid_record = Raise ZeroDivisionError
  /\ exists row : pydict,
       to_dict quoted_record = Ok row
       /\ dict_get "spread_percent" row = Some (VFloat 0.5).
Proof.
  destruct (to_dict_raises_iff zero_bid_record) as [Hraise _].
  destruct (to_dict_raises_iff quoted_record) as [_ Hok].
  split.
  - apply Hraise. split; [reflexivity|].
    exists (book [mkOrderBookLevel 0 2] [mkOrderBookLevel 100.5 3]),
           (mkOrderBookLevel 100.5 3), (mkOrderBookLevel 0 2), [], [].
    repeat split; reflexivity.
  - exact (Hok (book [mkOrderBookLevel 100 2] [mkOrderBookLevel 100.5 3])
               (mkOrderBookLevel 100.5 3) (mkOrderBookLevel 100 2) [] []
               eq_refl eq_refl eq_refl eq_refl).
Defined.

(** * The sorting contract and its reference instance *)

Lemma by_timestamp_total (r1 r2 : Row) :
  by_timestamp r1 r2 = true \/ by_timestamp r2 r1 = true.
Proof. unfold by_timestamp. lia. Qed.

(** Elements of a list are told apart by a key without duplicates. *)
Lemma NoDup_fmap_eq {A B} (f : A -> B) (l : list A) (x y : A) :
  NoDup (map f l) -> x ∈ l -> y ∈ l -> f x = f y -> x = y.
Proof.
  intros Hnodup Hx Hy Hf.
  induction l as [|a l IH]; [by apply elem_of_nil in Hx|].
  cbn in Hnodup. apply NoDup_cons in Hnodup as [Hnotin Hnodup].
  apply elem_of_cons in Hx as [->|Hx], Hy as [->|Hy]; try done.
  - exfalso. apply Hnotin. rewrite Hf. by apply list_elem_of_fmap_2.
  - exfalso. apply Hnotin. rewrite <- Hf. by apply list_elem_of_fmap_2.
  - by apply IH.
Qed.

Section SortFacts.

Context (pd : PandasSort).

Lemma sort_by_timestamp_perm (df : DataFrame) :
  sort_values pd by_timestamp df ≡ₚ df.
Proof. apply sort_values_perm. Qed.

Lemma sort_by_timestamp_sorted (df : DataFrame) :
  StronglySorted (fun r1 r2 => row_timestamp r1 <= row_timestamp r2)
                 (sort_values pd by_timestamp df).
Proof.
  apply Sorted_StronglySorted.
  - intros r1 r2 r3. lia.
  - rewrite <- (list_fmap_id (sort_values pd by_timestamp df)).
    eapply (Sorted_fmap id);
      [|apply (sort_values_sorted pd), by_timestamp_total].
    intros r1 r2. unfold by_timestamp, row_timestamp. cbn. lia.
Qed.

Lemma sort_by_timestamp_length (df : DataFrame) :
  length (sort_values pd by_timestamp df) = length df.
Proof. apply Permutation_length, sort_by_timestamp_perm. Qed.

Lemma sort_by_timestamp_nonempty (df : DataFrame) :
  df <> [] -> sort_values pd by_timestamp df <> [].
Proof.
  intros Hne Hnil. apply Hne, Permutation_nil_r.
  rewrite <- Hnil. symmetry. apply sort_by_timestamp_perm.
Qed.

(** The timestamps of a sorted frame are the sorted timestamps. *)
Lemma sort_by_timestamp_stamps (df : DataFrame) :
  Sorted Z.le (map row_timestamp df) ->
  map row_timestamp (sort_values pd by_timestamp df) = map row_timestamp df.
Proof.
  intros Hsorted.
  apply (Sorted_unique Z.le); [|done|].
  - apply StronglySorted_Sorted.
    apply (StronglySorted_fmap row_timestamp
             (fun r1 r2 => row_timestamp r1 <= row_timestamp r2) Z.le);
      [done|apply sort_by_timestamp_sorted].
  - apply fmap_Permutation, sort_by_timestamp_perm.
Qed.

(** With pairwise distinct timestamps the sorted frame does not depend on the
    order the rows were given in. *)
Lemma sort_by_timestamp_unique (df1 df2 : DataFrame) :
  NoDup (map row_timestamp df1) ->
  df1 ≡ₚ df2 ->
  sort_values pd by_timestamp df1 = sort_values pd by_timestamp df2.
Proof.
  intros Hnodup Hperm.
  apply (StronglySorted_unique_strong
           (fun r1 r2 => row_timestamp r1 <= row_timestamp r2));
    [|apply sort_by_timestamp_sorted..|].
  - intros r1 r2 Hr1 Hr2 Hle1 Hle2.
    rewrite sort_by_timestamp_perm in Hr1.
    rewrite sort_by_timestamp_perm, <- Hperm in Hr2.
    eapply (NoDup_fmap_eq row_timestamp df1); [done..|lia].
  - by rewrite !sort_by_timestamp_perm.
Qed.

End SortFacts.

(** * The indicator engine *)

(** The sources are embedded with [map]; stdpp states its list lemmas with
    [<$>]. *)
Ltac as_fmap :=
  repeat match goal with
         | |- context [map ?f ?l] => change (map f l) with (f <$> l)
         | H : context [map ?f ?l] |- _ => change (map f l) with (f <$> l) in H
         end.

Lemma extra_get_set (k k' : string) (x : float) (d : list (string * float)) :
  extra_get k (extra_set k' x d)
  = if String.eqb k k' then Some x else extra_get k d.
Proof.
  induction d as [|[k0 x0] d IH]; cbn; [done|].
  destruct (String.eqb_spec k' k0) as [<-|Hne]; cbn.
  - by destruct (String.eqb k k').
  - rewrite IH.
    destruct (String.eqb_spec k k0) as [->|_]; [|done].
    by destruct (String.eqb_spec k0 k') as [->|_].
Qed.

Lemma extra_get_Some_in (k : string) (x : float) (d : list (string * float)) :
  extra_get k d = Some x -> str_in k (map fst d) = true.
Proof.
  induction d as [|[k0 x0] d IH]; cbn; [done|].
  destruct (String.eqb k k0); [done|]. exact IH.
Qed.

Lemma field_name_inj (f g : ind_field) : field_name f = field_name g -> f = g.
Proof. destruct f, g; cbn; intros H; try reflexivity; discriminate H. Qed.

Lemma set_column_lookup (name : string) (series : Series) (df : DataFrame)
    (i : nat) :
  set_column name series df !! i
  = (fun r => mkRow (row_ohlcv r)
                    (extra_set name (nth i series nan) (row_extra r)))
    <$> df !! i.
Proof. apply list_lookup_imap. Qed.

Lemma set_column_ohlcv (name : string) (series : Series) (df : DataFrame) :
  map row_ohlcv (set_column name series df) = map row_ohlcv df.
Proof.
  apply list_eq; intros i. as_fmap.
  rewrite !list_lookup_fmap, set_column_lookup.
  destruct (df !! i); reflexivity.
Qed.

Lemma cols_ohlcv (df df0 : DataFrame) :
  map row_ohlcv df = map row_ohlcv df0 ->
  col_close df = col_close df0 /\ col_high df = col_high df0
  /\ col_low df = col_low df0 /\ col_volume df = col_volume df0.
Proof.
  intros Heq. unfold col_close, col_high, col_low, col_volume.
  rewrite <- (map_map row_ohlcv ohlcv_close df),
          <- (map_map row_ohlcv ohlcv_high df),
          <- (map_map row_ohlcv ohlcv_low df),
          <- (map_map row_ohlcv ohlcv_volume df), Heq.
  by rewrite !map_map.
Qed.

Lemma lib_series_ohlcv (lib : ta.Lib) (f : ind_field) (df df0 : DataFrame) :
  map row_ohlcv df = map row_ohlcv df0 ->
  lib_series lib f df = lib_series lib f df0.
Proof.
  intros Heq. destruct (cols_ohlcv df df0 Heq) as (Hc & Hh & Hl & Hv).
  destruct f; cbn; by rewrite ?Hc, ?Hh, ?Hl, ?Hv.
Qed.

Section EngineFacts.

Context (pd : PandasSort) (lib : ta.Lib).

Lemma columns_from_fresh (df0 : DataFrame) :
  Forall (fun r => row_extra r = []) df0 -> columns_from lib df0 df0.
Proof.
  intros Hfresh. split; [done|]. intros f i r Hr. left.
  rewrite Forall_lookup in Hfresh. unfold row_float.
  by rewrite (Hfresh i r Hr).
Qed.

Lemma columns_from_set (df0 df : DataFrame) (f : ind_field) (series : Series) :
  columns_from lib df0 df ->
  lib_series lib f df0 = Ok series ->
  columns_from lib df0 (set_column (field_name f) series df).
Proof.
  intros [Hohlcv Hcells] Hseries. split.
  - by rewrite set_column_ohlcv.
  - intros g i r. rewrite set_column_lookup.
    destruct (df !! i) as [r0|] eqn:Hr0; [|done]. intros [= <-].
    unfold row_float; cbn. rewrite extra_get_set.
    destruct (String.eqb_spec (field_name g) (field_name f)) as [Heq|_].
    + apply field_name_inj in Heq as ->. right. by exists series.
    + apply (Hcells g i r0 Hr0).
Qed.

Lemma keeps_bind {S A B} {I : S -> Prop} (m : M S A) (k : A -> M S B) :
  keeps I m ->
  (forall a, (exists s, I s /\ (m s).1 = Ok a) -> keeps I (k a)) ->
  keeps I (m ≫= k).
Proof.
  intros Hm Hk s Hs. unfold mbind, M_bind.
  specialize (Hm s Hs).
  destruct (m s) as [[a|err] s'] eqn:Hms; cbn in *; [|done].
  apply Hk; [|done]. exists s. by rewrite Hms.
Qed.

Lemma keeps_call {S A} {I : S -> Prop} (f : S -> outcome A) :
  keeps I (call f).
Proof. by intros s Hs. Qed.

Lemma keeps_set_column (df0 : DataFrame) (f : ind_field) (series : Series) :
  lib_series lib f df0 = Ok series ->
  keeps (columns_from lib df0) (modify (set_column (field_name f) series)).
Proof. intros Hseries s Hs. by apply columns_from_set. Qed.

(** A library call made on a frame that carries the candles of [df0] is the
    call made on [df0]. *)
Ltac on_frame df0 :=
  repeat match goal with
         | H : ex _ |- _ =>
             let s := fresh "s" in
             let Hs := fresh "Hs" in
             let Hc := fresh "Hc" in
             destruct H as (s & [Hs _] & Hc); cbn in Hc;
             let Hcl := fresh "Hcl" in
             let Hh := fresh "Hh" in
             let Hl := fresh "Hl" in
             let Hv := fresh "Hv" in
             destruct (cols_ohlcv s df0 Hs) as (Hcl & Hh & Hl & Hv);
             rewrite ?Hcl, ?Hh, ?Hl, ?Hv in Hc; clear Hcl Hh Hl Hv Hs
         end.

Lemma indicator_block_columns (df0 : DataFrame) :
  keeps (columns_from lib df0) (indicator_block lib).
Proof.
  unfold indicator_block, assign.
  repeat (apply keeps_bind; [|intros ? ?]); try apply keeps_call;
    on_frame df0.
  all: first
    [ apply (keeps_set_column df0 F_sma_20) | apply (keeps_set_column df0 F_sma_50)
    | apply (keeps_set_column df0 F_sma_200) | apply (keeps_set_column df0 F_ema_12)
    | apply (keeps_set_column df0 F_ema_26) | apply (keeps_set_column df0 F_macd)
    | apply (keeps_set_column df0 F_macd_signal)
    | apply (keeps_set_column df0 F_macd_hist)
    | apply (keeps_set_column df0 F_rsi_14) | apply (keeps_set_column df0 F_bb_upper)
    | apply (keeps_set_column df0 F_bb_middle)
    | apply (keeps_set_column df0 F_bb_lower)
    | apply (keeps_set_column df0 F_atr_14) | apply (keeps_set_column df0 F_obv) ].
  all: cbn;
    repeat match goal with
           | H : ?call = Ok _ |- context [?call] => rewrite H; cbn
           end; done.
Qed.

Lemma calculate_indicators_runs (df : DataFrame) :
  df <> [] ->
  calculate_indicators pd lib df
  = Ok (indicator_block lib (sort_values pd by_timestamp df)).2.
Proof.
  destruct df as [|r df]; [done|]. intros _.
  unfold calculate_indicators, try_except.
  by destruct (indicator_block lib _) as [[[]|e] s'].
Qed.

Lemma engine_frame_perm (l : list OHLCV) :
  engine_frame pd l ≡ₚ map (fun o => mkRow o []) l.
Proof.
  unfold engine_frame. rewrite sort_by_timestamp_perm.
  destruct l as [|c l]; [done|]. apply sort_by_timestamp_perm.
Qed.

Lemma engine_frame_length (l : list OHLCV) :
  length (engine_frame pd l) = length l.
Proof. by rewrite engine_frame_perm, length_map. Qed.

Lemma engine_frame_fresh (l : list OHLCV) :
  Forall (fun r => row_extra r = []) (engine_frame pd l).
Proof.
  rewrite engine_frame_perm. apply Forall_forall. intros r Hr.
  apply list_elem_of_In, in_map_iff in Hr as (o & <- & _). done.
Qed.

Lemma engine_columns (l : list OHLCV) :
  columns_from lib (engine_frame pd l)
               (indicator_block lib (engine_frame pd l)).2.
Proof. apply indicator_block_columns, columns_from_fresh, engine_frame_fresh. Qed.

(** [calculate_technical_indicators] always returns: one indicator set per
    row of the frame the [try] block ended with. *)
Lemma calculate_technical_indicators_runs (l : list OHLCV) :
  calculate_technical_indicators pd lib l
  = Ok (map (fun row =>
               TechnicalIndicators_init (convert_to_technical_indicators row))
            (match l with
             | [] => []
             | _ :: _ => (indicator_block lib (engine_frame pd l)).2
             end)).
Proof.
  destruct l as [|c l]; [done|].
  unfold calculate_technical_indicators.
  rewrite calculate_indicators_runs; [done|].
  apply sort_by_timestamp_nonempty. done.
Qed.

Lemma convert_step_get (row : Row) (name field : string)
    (acc : list (string * float)) :
  extra_get name
    (if row_has field row then
       match row_float field row with
       | Some x => extra_set field x acc
       | None => acc
       end
     else acc)
  = if String.eqb name field then
      match row_float name row with
      | Some x => Some x
      | None => extra_get name acc
      end
    else extra_get name acc.
Proof.
  destruct (row_float field row) as [x|] eqn:Hfield.
  - assert (row_has field row = true) as ->.
    { unfold row_has. rewrite (extra_get_Some_in field x); [|done].
      by rewrite orb_true_r. }
    rewrite extra_get_set.
    destruct (String.eqb_spec name field) as [->|_]; [|done]. by rewrite Hfield.
  - destruct (String.eqb_spec name field) as [->|_].
    + rewrite Hfield. by destruct (row_has field row).
    + by destruct (row_has field row).
Qed.

Lemma convert_fold_get (row : Row) (name : string) (fields : list string)
    (acc : list (string * float)) :
  extra_get name
    (fold_left
       (fun indicators field =>
          if row_has field row then
            match row_float field row with
            | Some x => extra_set field x indicators
            | None => indicators
            end
          else indicators)
       fields acc)
  = if str_in name fields then
      match row_float name row with
      | Some x => Some x
      | None => extra_get name acc
      end
    else extra_get name acc.
Proof.
  revert acc. induction fields as [|field fields IH]; intros acc; [done|].
  cbn [fold_left]. rewrite IH, convert_step_get.
  unfold str_in; cbn [existsb]. fold (str_in name fields).
  destruct (String.eqb name field), (str_in name fields),
           (row_float name row); done.
Qed.

Lemma convert_fields_get (row : Row) (name : string) :
  str_in name indicator_fields = true ->
  extra_get name (kw_fields (convert_to_technical_indicators row))
  = row_float name row.
Proof.
  intros Hin. unfold convert_to_technical_indicators; cbn [kw_fields].
  rewrite convert_fold_get, Hin. by destruct (row_float name row).
Qed.

(** The field [f] of the indicator set built from a row is the cell of the
    column of [f] in that row, and [None] when the row has no such column. *)
Lemma ti_get_init_convert (f : ind_field) (row : Row) :
  ti_get f (TechnicalIndicators_init (convert_to_technical_indicators row))
  = row_float (field_name f) row.
Proof. destruct f; apply convert_fields_get; reflexivity. Qed.

Lemma ti_key_init_convert (row : Row) :
  ti_key (TechnicalIndicators_init (convert_to_technical_indicators row))
  = ohlcv_key (row_ohlcv row).
Proof. reflexivity. Qed.

End EngineFacts.

(** On the three candles the reference library fills the moving averages
    with [nan] and raises in the true-range average, so that [atr_14] and
    [obv], assigned last, stay [None]. *)
Example three_candles_indicators :
  (fun out => map (fun ind => (ti_timestamp ind, sma_20 ind, rsi_14 ind,
                               atr_14 ind, obv ind)) out)
    <$> calculate_technical_indicators ref_sort ref.lib three_candles_shuffled
  = Ok [ (1, Some nan, Some nan, None, None);
         (2, Some nan, Some nan, None, None);
         (3, Some nan, Some nan, None, None) ].
Proof. vm_compute. reflexivity. Qed.

(** * Alignment of candles and indicator sets *)

Lemma indicators_by_timestamp_snoc (inds : list TechnicalIndicators)
    (a : TechnicalIndicators) (t : Z) :
  indicators_by_timestamp (inds ++ [a]) !! t
  = if decide (ti_timestamp a = t) then Some a
    else indicators_by_timestamp inds !! t.
Proof.
  unfold indicators_by_timestamp. rewrite foldl_snoc.
  apply lookup_insert.
Qed.

(** What the dictionary returns is an element of the list with the
    timestamp asked for. *)
Lemma indicators_by_timestamp_Some (inds : list TechnicalIndicators) (t : Z)
    (ind : TechnicalIndicators) :
  indicators_by_timestamp inds !! t = Some ind ->
  ind ∈ inds /\ ti_timestamp ind = t.
Proof.
  induction inds as [|a inds IH] using rev_ind; [done|].
  rewrite indicators_by_timestamp_snoc.
  destruct (decide (ti_timestamp a = t)) as [Ha|Ha].
  - intros [= <-]. split; [|done]. apply elem_of_app. right. by left.
  - intros Hlook. destruct (IH Hlook) as [Hin Hts].
    split; [|done]. apply elem_of_app. by left.
Qed.

Lemma indicators_by_timestamp_is_Some (inds : list TechnicalIndicators) (t : Z) :
  t ∈ map ti_timestamp inds -> is_Some (indicators_by_timestamp inds !! t).
Proof.
  induction inds as [|a inds IH] using rev_ind;
    [intros H; by apply elem_of_nil in H|].
  rewrite map_app, indicators_by_timestamp_snoc. intros Hin.
  destruct (decide (ti_timestamp a = t)) as [Ha|Ha]; [done|].
  apply IH. apply elem_of_app in Hin as [Hin|Hin]; [done|].
  apply list_elem_of_singleton in Hin. congruence.
Qed.

(** With pairwise distinct timestamps every element is found under its own
    timestamp. *)
Lemma indicators_by_timestamp_own (inds : list TechnicalIndicators)
    (ind : TechnicalIndicators) :
  NoDup (map ti_timestamp inds) ->
  ind ∈ inds ->
  indicators_by_timestamp inds !! ti_timestamp ind = Some ind.
Proof.
  induction inds as [|a inds IH] using rev_ind;
    [intros _ H; by apply elem_of_nil in H|].
  rewrite map_app, indicators_by_timestamp_snoc.
  intros Hnodup Hin. apply NoDup_app in Hnodup as (Hnodup & Hdisj & _).
  apply elem_of_app in Hin as [Hin|Hin].
  - destruct (decide (ti_timestamp a = ti_timestamp ind)) as [Ha|Ha];
      [|by apply IH].
    exfalso. apply (Hdisj (ti_timestamp ind)).
    + by apply list_elem_of_fmap_2.
    + rewrite <- Ha. by left.
  - apply list_elem_of_singleton in Hin as ->. by rewrite decide_True.
Qed.

Lemma single_pair_keys (symbol timeframe : string) (l : list OHLCV) :
  single_pair symbol timeframe l ->
  map ohlcv_key l
  = map (fun t => (symbol, timeframe, t)) (map ohlcv_timestamp l).
Proof.
  induction 1 as [|c l [Hs Ht] _ IH]; [done|].
  cbn. rewrite IH. unfold ohlcv_key. by rewrite Hs, Ht.
Qed.

Section ProcessFacts.

Context (pd : PandasSort) (lib : ta.Lib).

Lemma engine_frame_ohlcv_perm (l : list OHLCV) :
  map row_ohlcv (engine_frame pd l) ≡ₚ l.
Proof.
  as_fmap. rewrite engine_frame_perm. as_fmap.
  rewrite <- list_fmap_compose. by rewrite list_fmap_id.
Qed.

(** The candles of the frame the indicators are computed on are the given
    candles in ascending timestamp order. *)
Lemma engine_frame_stamps (l : list OHLCV) :
  Sorted Z.le (map ohlcv_timestamp l) ->
  map ohlcv_timestamp (map row_ohlcv (engine_frame pd l))
  = map ohlcv_timestamp l.
Proof.
  intros Hsorted. apply (Sorted_unique Z.le); [|done|].
  - rewrite map_map.
    apply StronglySorted_Sorted.
    apply (StronglySorted_fmap row_timestamp
             (fun r1 r2 => row_timestamp r1 <= row_timestamp r2) Z.le);
      [done|apply sort_by_timestamp_sorted].
  - as_fmap. apply fmap_Permutation, engine_frame_ohlcv_perm.
Qed.

Lemma engine_frame_keys (symbol timeframe : string) (l : list OHLCV) :
  single_pair symbol timeframe l ->
  Sorted Z.le (map ohlcv_timestamp l) ->
  map ohlcv_key (map row_ohlcv (engine_frame pd l)) = map ohlcv_key l.
Proof.
  intros Hpair Hsorted.
  rewrite (single_pair_keys symbol timeframe l Hpair).
  rewrite (single_pair_keys symbol timeframe (map row_ohlcv (engine_frame pd l))).
  - by rewrite engine_frame_stamps.
  - unfold single_pair. by rewrite engine_frame_ohlcv_perm.
Qed.

(** The indicator sets, in terms of the candles of the final frame. *)
Lemma calculate_technical_indicators_keys (l : list OHLCV)
    (inds : list TechnicalIndicators) :
  calculate_technical_indicators pd lib l = Ok inds ->
  map ti_key inds = map ohlcv_key (map row_ohlcv (engine_frame pd l)).
Proof.
  rewrite calculate_technical_indicators_runs. intros [= <-].
  destruct l as [|c l].
  - assert (engine_frame pd [] = []) as ->; [|done].
    apply Permutation_nil_r, (engine_frame_perm pd []).
  - destruct (engine_columns pd lib (c :: l)) as [<- _].
    rewrite !map_map. done.
Qed.

Lemma process_ohlcv_with_indicators_runs (l : list OHLCV) :
  exists inds : list TechnicalIndicators,
    calculate_technical_indicators pd lib l = Ok inds
    /\ process_ohlcv_with_indicators pd lib l
       = Ok (map (fun c =>
                    merge_data c
                      (indicators_by_timestamp inds !! ohlcv_timestamp c) None)
                 l).
Proof.
  eexists. split; [apply calculate_technical_indicators_runs|].
  destruct l as [|c l]; [done|].
  unfold process_ohlcv_with_indicators.
  by rewrite calculate_technical_indicators_runs.
Qed.

End ProcessFacts.

(** C6: for a non-empty series of one (symbol, timeframe) pair in ascending
    timestamp order, [calculate_technical_indicators] returns as many
    indicator sets as there are candles, the i-th carrying the key of the
    i-th candle, and [process_ohlcv_with_indicators] returns one record per
    candle, in order, whose indicator set is one of those computed and has
    the candle's timestamp and key; with pairwise distinct timestamps it is
    the i-th one. *)
Theorem indicators_aligned (pd : PandasSort) (lib : ta.Lib)
    (symbol timeframe : string) (ohlcv_list : list OHLCV) :
  ohlcv_list <> [] ->
  single_pair symbol timeframe ohlcv_list ->
  Sorted Z.le (map ohlcv_timestamp ohlcv_list) ->
  exists (inds : list TechnicalIndicators) (out : list MarketData),
    calculate_technical_indicators pd lib ohlcv_list = Ok inds
    /\ length inds = length ohlcv_list
    /\ map ti_key inds = map ohlcv_key ohlcv_list
    /\ process_ohlcv_with_indicators pd lib ohlcv_list = Ok out
    /\ length out = length ohlcv_list
    /\ map ohlcv out = ohlcv_list
    /\ (forall md, md ∈ out ->
          indicators md ∈ inds
          /\ ti_timestamp (indicators md) = ohlcv_timestamp (ohlcv md)
          /\ ti_key (indicators md) = ohlcv_key (ohlcv md)
          /\ order_book_snapshot md = None)
    /\ (NoDup (map ohlcv_timestamp ohlcv_list) ->
        map indicators out = inds).
Proof.
  intros _ Hpair Hsorted.
  destruct (process_ohlcv_with_indicators_runs pd lib ohlcv_list)
    as (inds & Hinds & Hout).
  pose proof (calculate_technical_indicators_keys pd lib _ _ Hinds) as Hkeys.
  rewrite (engine_frame_keys pd symbol timeframe) in Hkeys by done.
  assert (Hstamps : map ti_timestamp inds = map ohlcv_timestamp ohlcv_list).
  { transitivity (map snd (map ti_key inds)); [by rewrite map_map|].
    rewrite Hkeys. by rewrite map_map. }
  assert (Hfound : forall c, c ∈ ohlcv_list ->
            exists ind, indicators_by_timestamp inds !! ohlcv_timestamp c = Some ind
                        /\ ind ∈ inds /\ ti_timestamp ind = ohlcv_timestamp c
                        /\ ti_key ind = ohlcv_key c).
  { intros c Hc.
    destruct (indicators_by_timestamp_is_Some inds (ohlcv_timestamp c))
      as [ind Hind].
    { rewrite Hstamps. by apply list_elem_of_fmap_2. }
    exists ind. split; [done|].
    destruct (indicators_by_timestamp_Some _ _ _ Hind) as [Hin Hts].
    split; [done|]. split; [done|].
    apply (list_elem_of_fmap_2 ti_key) in Hin. as_fmap. rewrite Hkeys in Hin.
    apply list_elem_of_fmap in Hin as (c' & Hkey & Hc').
    unfold single_pair in Hpair. rewrite Forall_forall in Hpair.
    destruct (Hpair c Hc) as [Hs Ht], (Hpair c' Hc') as [Hs' Ht'].
    unfold ti_key, ohlcv_key in *. injection Hkey as Hks Hkt _.
    by rewrite Hks, Hkt, Hts, Hs, Ht, Hs', Ht'. }
  exists inds. eexists. split; [done|].
  split; [by rewrite <- (length_map ti_key), Hkeys, length_map|].
  split; [done|]. split; [exact Hout|].
  split; [by rewrite length_map|].
  split; [rewrite map_map; cbn; apply map_id|].
  split.
  - intros md Hmd. as_fmap. apply list_elem_of_fmap in Hmd as (c & -> & Hc).
    destruct (Hfound c Hc) as (ind & -> & Hin & Hts & Hkey). done.
  - intros Hnodup. rewrite map_map. rewrite <- Hstamps in Hnodup.
    apply list_eq. intros i. as_fmap. rewrite list_lookup_fmap.
    assert (Hi : ti_timestamp <$> inds !! i = ohlcv_timestamp <$> ohlcv_list !! i).
    { rewrite <- !list_lookup_fmap. as_fmap. by rewrite Hstamps. }
    destruct (ohlcv_list !! i) as [c|] eqn:Hc, (inds !! i) as [ind|] eqn:Hind;
      try done.
    cbn in *. injection Hi as Hi. rewrite <- Hi.
    rewrite indicators_by_timestamp_own; [done..|].
    by apply list_elem_of_lookup_2 in Hind.
Qed.

Lemma three_candles_sorted : Sorted Z.le (map ohlcv_timestamp three_candles).
Proof. repeat constructor; cbn; lia. Qed.

Lemma indicators_aligned_witness :
  exists (inds : list TechnicalIndicators) (out : list MarketData),
    calculate_technical_indicators ref_sort ref.lib three_candles = Ok inds
    /\ map ti_key inds
       = [("BTC/USDT", "1h", 1); ("BTC/USDT", "1h", 2); ("BTC/USDT", "1h", 3)]
    /\ process_ohlcv_with_indicators ref_sort ref.lib three_candles = Ok out
    /\ map ohlcv out = three_candles
    /\ map indicators out = inds.
Proof.
  destruct (indicators_aligned ref_sort ref.lib "BTC/USDT" "1h" three_candles)
    as (inds & out & Hinds & _ & Hkeys & Hout & _ & Hohlcv & _ & Hith).
  - discriminate.
  - repeat constructor.
  - exact three_candles_sorted.
  - exists inds, out. repeat split; try done.
    apply Hith. apply (bool_decide_unpack _). vm_compute. exact I.
Defined.

Lemma ohlcv_to_dataframe_permutation (pd : PandasSort) (l l' : list OHLCV) :
  NoDup (map ohlcv_timestamp l) ->
  l ≡ₚ l' ->
  ohlcv_to_dataframe pd l = ohlcv_to_dataframe pd l'.
Proof.
  intros Hnodup Hperm.
  destruct l as [|c l], l' as [|c' l']; [done| | |].
  - by apply Permutation_nil_cons in Hperm.
  - symmetry in Hperm. by apply Permutation_nil_cons in Hperm.
  - unfold ohlcv_to_dataframe. apply sort_by_timestamp_unique.
    + by rewrite map_map.
    + as_fmap. by apply fmap_Permutation.
Qed.

(** C10: for candles with pairwise distinct timestamps, the indicator sets
    computed do not depend on the order the candles are given in, every
    candle is merged with the same indicator set under both orders, and the
    records come out in the order of the input. *)
Theorem process_order_independent (pd : PandasSort) (lib : ta.Lib)
    (ohlcv_list permuted : list OHLCV) :
  NoDup (map ohlcv_timestamp ohlcv_list) ->
  ohlcv_list ≡ₚ permuted ->
  calculate_technical_indicators pd lib permuted
  = calculate_technical_indicators pd lib ohlcv_list
  /\ exists assigned : OHLCV -> TechnicalIndicators,
       process_ohlcv_with_indicators pd lib ohlcv_list
       = Ok (map (fun c => mkMarketData c (assigned c) None) ohlcv_list)
       /\ process_ohlcv_with_indicators pd lib permuted
          = Ok (map (fun c => mkMarketData c (assigned c) None) permuted).
Proof.
  intros Hnodup Hperm.
  assert (Hsame : calculate_technical_indicators pd lib permuted
                  = calculate_technical_indicators pd lib ohlcv_list).
  { rewrite !calculate_technical_indicators_runs.
    unfold engine_frame.
    rewrite <- (ohlcv_to_dataframe_permutation pd _ _ Hnodup Hperm).
    destruct ohlcv_list as [|c l], permuted as [|c' l']; try done.
    - by apply Permutation_nil_cons in Hperm.
    - symmetry in Hperm. by apply Permutation_nil_cons in Hperm. }
  split; [exact Hsame|].
  destruct (process_ohlcv_with_indicators_runs pd lib ohlcv_list)
    as (inds & Hinds & Hout).
  destruct (process_ohlcv_with_indicators_runs pd lib permuted)
    as (inds' & Hinds' & Hout').
  assert (inds' = inds) as -> by congruence.
  exists (fun c =>
            indicators
              (merge_data c (indicators_by_timestamp inds !! ohlcv_timestamp c)
                          None)).
  by rewrite Hout, Hout'.
Qed.

Lemma process_order_independent_witness :
  calculate_technical_indicators ref_sort ref.lib three_candles_shuffled
  = calculate_technical_indicators ref_sort ref.lib three_candles
  /\ exists assigned : OHLCV -> TechnicalIndicators,
       process_ohlcv_with_indicators ref_sort ref.lib three_candles
       = Ok (map (fun c => mkMarketData c (assigned c) None) three_candles)
       /\ process_ohlcv_with_indicators ref_sort ref.lib three_candles_shuffled
          = Ok (map (fun c => mkMarketData c (assigned c) None)
                    three_candles_shuffled).
Proof.
  apply (process_order_independent ref_sort ref.lib).
  - apply (bool_decide_unpack _). vm_compute. exact I.
  - symmetry.
    apply (Permutation_cons_append [candle_at 1 100; candle_at 2 101]).
Defined.

(** * Merging *)

(** C7 (as stated) fails in its second half: [merge_data] stores a supplied
    indicator set without looking at its key. *)
Lemma merge_data_foreign_key :
  let md := merge_data candle0 (Some foreign_indicators) None in
  ohlcv md = candle0
  /\ ti_key (indicators md) = ("ETH/USDT", "4h", 7)
  /\ ohlcv_key (ohlcv md) = ("BTC/USDT", "1h", 1)
  /\ ti_key (indicators md) <> ohlcv_key (ohlcv md).
Proof. repeat split. discriminate. Qed.

Lemma process_record_key (pd : PandasSort) (lib : ta.Lib) (l : list OHLCV)
    (out : list MarketData) (md : MarketData) :
  process_ohlcv_with_indicators pd lib l = Ok out ->
  md ∈ out ->
  ohlcv md ∈ l
  /\ ti_timestamp (indicators md) = ohlcv_timestamp (ohlcv md)
  /\ forall symbol timeframe,
       single_pair symbol timeframe l ->
       ti_key (indicators md) = ohlcv_key (ohlcv md).
Proof.
  destruct (process_ohlcv_with_indicators_runs pd lib l) as (inds & Hinds & ->).
  intros [= <-] Hmd. as_fmap.
  apply list_elem_of_fmap in Hmd as (c & -> & Hc).
  split; [done|].
  destruct (indicators_by_timestamp inds !! ohlcv_timestamp c) as [ind|] eqn:Hind;
    [|done].
  destruct (indicators_by_timestamp_Some _ _ _ Hind) as [Hin Hts].
  split; [done|]. intros symbol timeframe Hpair. cbn.
  apply (list_elem_of_fmap_2 ti_key) in Hin.
  pose proof (calculate_technical_indicators_keys pd lib _ _ Hinds) as Hkeys.
  as_fmap. rewrite Hkeys in Hin.
  apply list_elem_of_fmap in Hin as (c' & Hkey & Hc').
  rewrite engine_frame_ohlcv_perm in Hc'.
  unfold single_pair in Hpair. rewrite Forall_forall in Hpair.
  destruct (Hpair c Hc) as [Hs Ht], (Hpair c' Hc') as [Hs' Ht'].
  unfold ti_key, ohlcv_key in *. injection Hkey as Hks Hkt _.
  by rewrite Hks, Hkt, Hts, Hs, Ht, Hs', Ht'.
Qed.

(** C7 (as the code has it): merging a candle with no indicator set yields a
    record whose indicator set carries the candle's key and has every
    indicator field absent; a supplied indicator set is stored as it is, so
    the keys agree exactly when the supplied set carries the candle's key;
    in the records built by [process_ohlcv_with_indicators] the indicator
    set has the candle's timestamp, and for a series of a single pair the
    candle's key. *)
Theorem merge_data_keys :
  (forall (c : OHLCV) (orderbook : option OrderBook),
      let md := merge_data c None orderbook in
      ohlcv md = c
      /\ ti_key (indicators md) = ohlcv_key c
      /\ ti_datetime (indicators md) = ohlcv_datetime c
      /\ (forall f : ind_field, ti_get f (indicators md) = None)
      /\ order_book_snapshot md = orderbook)
  /\ (forall (c : OHLCV) (ind : TechnicalIndicators)
             (orderbook : option OrderBook),
        let md := merge_data c (Some ind) orderbook in
        ohlcv md = c /\ indicators md = ind
        /\ order_book_snapshot md = orderbook
        /\ (ti_key (indicators md) = ohlcv_key (ohlcv md)
            <-> ti_key ind = ohlcv_key c))
  /\ (forall (pd : PandasSort) (lib : ta.Lib) (l : list OHLCV)
             (out : list MarketData) (md : MarketData),
        process_ohlcv_with_indicators pd lib l = Ok out ->
        md ∈ out ->
        ti_timestamp (indicators md) = ohlcv_timestamp (ohlcv md)
        /\ forall symbol timeframe,
             single_pair symbol timeframe l ->
             ti_key (indicators md) = ohlcv_key (ohlcv md)).
Proof.
  split; [|split].
  - intros c orderbook. repeat split. by intros [].
  - intros c ind orderbook. by repeat split.
  - intros pd lib l out md Hout Hmd.
    by destruct (process_record_key pd lib l out md Hout Hmd) as (_ & ? & ?).
Qed.

Lemma merge_data_keys_witness :
  ti_key (indicators (merge_data candle0 None None)) = ("BTC/USDT", "1h", 1)
  /\ forall md : MarketData,
       md ∈ match process_ohlcv_with_indicators ref_sort ref.lib three_candles
            with Ok out => out | Raise _ => [] end ->
       ti_timestamp (indicators md) = ohlcv_timestamp (ohlcv md).
Proof.
  destruct merge_data_keys as (Homit & _ & Hrun).
  split.
  - exact (proj1 (proj2 (Homit candle0 None))).
  - intros md Hmd.
    destruct (process_ohlcv_with_indicators ref_sort ref.lib three_candles)
      as [out|e] eqn:Hout.
    + exact (proj1 (Hrun ref_sort ref.lib three_candles out md Hout Hmd)).
    + by apply elem_of_nil in Hmd.
Defined.

(** * Order-book attachment *)

Lemma is_pair_spec (symbol timeframe : string) (md : MarketData) :
  is_pair symbol timeframe md = true
  <-> ohlcv_symbol (ohlcv md) = symbol /\ ohlcv_timeframe (ohlcv md) = timeframe.
Proof.
  unfold is_pair. rewrite andb_true_iff, !String.eqb_eq. done.
Qed.

Lemma is_pair_set_order_book (symbol timeframe : string) (ob : OrderBook)
    (md : MarketData) :
  is_pair symbol timeframe (set_order_book ob md) = is_pair symbol timeframe md.
Proof. reflexivity. Qed.

Lemma last_of_pair_unique (symbol timeframe : string) (all : list MarketData)
    (i j : nat) :
  last_of_pair symbol timeframe all i ->
  last_of_pair symbol timeframe all j -> i = j.
Proof.
  intros [(mdi & Hi & Hpi) Hafter_i] [(mdj & Hj & Hpj) Hafter_j].
  destruct (Nat.lt_trichotomy i j) as [Hlt|[Heq|Hlt]]; [|done|].
  - specialize (Hafter_i j mdj Hlt Hj). congruence.
  - specialize (Hafter_j i mdi Hlt Hi). congruence.
Qed.

(** One backward scan either finds the last record of the pair and assigns
    the order book to it, or finds none and changes nothing. *)
Lemma attach_scan_cases (n : nat) (symbol timeframe : string) (ob : OrderBook)
    (all : list MarketData) :
  (attach_scan n symbol timeframe ob all = all
   /\ forall j md, (j < n)%nat -> all !! j = Some md ->
                   is_pair symbol timeframe md = false)
  \/ exists i md,
       (i < n)%nat /\ all !! i = Some md
       /\ is_pair symbol timeframe md = true
       /\ (forall j md', (i < j < n)%nat -> all !! j = Some md' ->
                         is_pair symbol timeframe md' = false)
       /\ attach_scan n symbol timeframe ob all
          = <[i := set_order_book ob md]> all.
Proof.
  induction n as [|n IH]; [left; split; [done|]; intros; lia|].
  cbn [attach_scan].
  destruct (all !! n) as [md|] eqn:Hn.
  - destruct (is_pair symbol timeframe md) eqn:Hpair.
    + right. exists n, md. repeat split; try done; [lia|]. intros; lia.
    + destruct IH as [[Hsame Hnone]|(i & mdi & Hi & Hlook & Hp & Hafter & Hres)].
      * left. split; [done|]. intros j md' Hj Hlook.
        destruct (decide (j = n)) as [->|]; [congruence|].
        apply (Hnone j); [lia|done].
      * right. exists i, mdi. repeat split; try done; [lia|].
        intros j md' Hj Hlook'.
        destruct (decide (j = n)) as [->|]; [congruence|].
        apply (Hafter j); [lia|done].
  - destruct IH as [[Hsame Hnone]|(i & mdi & Hi & Hlook & Hp & Hafter & Hres)].
    + left. split; [done|]. intros j md' Hj Hlook.
      destruct (decide (j = n)) as [->|]; [congruence|].
      apply (Hnone j); [lia|done].
    + right. exists i, mdi. repeat split; try done; [lia|].
      intros j md' Hj Hlook'.
      destruct (decide (j = n)) as [->|]; [congruence|].
      apply (Hafter j); [lia|done].
Qed.

Lemma attach_scan_full (symbol timeframe : string) (ob : OrderBook)
    (all : list MarketData) :
  (attach_scan (length all) symbol timeframe ob all = all
   /\ forall i, ~ last_of_pair symbol timeframe all i)
  \/ exists i md,
       all !! i = Some md /\ last_of_pair symbol timeframe all i
       /\ attach_scan (length all) symbol timeframe ob all
          = <[i := set_order_book ob md]> all.
Proof.
  destruct (attach_scan_cases (length all) symbol timeframe ob all)
    as [[Hsame Hnone]|(i & md & Hi & Hlook & Hp & Hafter & Hres)].
  - left. split; [done|]. intros i [(md & Hlook & Hp) _].
    rewrite (Hnone i md) in Hp; [done| |done].
    by apply lookup_lt_Some in Hlook.
  - right. exists i, md. split; [done|]. split; [|done].
    split; [by exists md|]. intros j md' Hj Hlook'.
    apply (Hafter j); [|done]. apply lookup_lt_Some in Hlook'. lia.
Qed.

Lemma attached_from_lookup (ob : OrderBook) (all later : list MarketData)
    (i : nat) (mx : MarketData) :
  attached_from ob all later ->
  later !! i = Some mx ->
  exists md, all !! i = Some md /\ (mx = md \/ mx = set_order_book ob md).
Proof.
  intros [Hlen Hcells] Hx.
  destruct (all !! i) as [md|] eqn:Hmd.
  - exists md. split; [done|].
    destruct (Hcells i md Hmd) as [H|H]; rewrite H in Hx; injection Hx; auto.
  - apply lookup_lt_Some in Hx. apply lookup_ge_None in Hmd. lia.
Qed.

Lemma attached_from_last_of_pair (ob : OrderBook) (all later : list MarketData)
    (symbol timeframe : string) (i : nat) :
  attached_from ob all later ->
  last_of_pair symbol timeframe later i <-> last_of_pair symbol timeframe all i.
Proof.
  intros Hfrom. split.
  - intros [(mx & Hx & Hp) Hafter]. split.
    + destruct (attached_from_lookup _ _ _ _ _ Hfrom Hx) as (md & Hmd & [->| ->]);
        by exists md.
    + intros j md Hj Hmd.
      destruct (proj2 Hfrom j md Hmd) as [H|H]; by apply (Hafter j _ Hj H).
  - intros [(md & Hmd & Hp) Hafter]. split.
    + destruct (proj2 Hfrom i md Hmd) as [H|H]; eexists; split; try exact H; done.
    + intros j mx Hj Hx.
      destruct (attached_from_lookup _ _ _ _ _ Hfrom Hx) as (md' & Hmd' & [->| ->]);
        by apply (Hafter j md').
Qed.

(** The attachment block, record by record. *)
Lemma attach_orderbook_cells (symbol : string) (timeframes : list string)
    (ob : OrderBook) (all : list MarketData) :
  let later := attach_orderbook symbol timeframes ob all in
  attached_from ob all later
  /\ (forall i md, all !! i = Some md ->
        (exists tf, tf ∈ timeframes /\ last_of_pair symbol tf all i) ->
        later !! i = Some (set_order_book ob md))
  /\ (forall i md, all !! i = Some md ->
        ~ (exists tf, tf ∈ timeframes /\ last_of_pair symbol tf all i) ->
        later !! i = Some md).
Proof.
  induction timeframes as [|tf tfs IH] using rev_ind.
  { cbn. split; [split; [done|]; by left|]. split; [|done].
    intros i md _ (tf & Htf & _). by apply elem_of_nil in Htf. }
  unfold attach_orderbook in *. rewrite foldl_snoc. cbn zeta in *.
  set (X := foldl _ all tfs) in *.
  destruct IH as (Hfrom & Hset & Hkeep).
  assert (Hlast : forall i, last_of_pair symbol tf X i
                            <-> last_of_pair symbol tf all i)
    by (intros i; by apply (attached_from_last_of_pair ob)).
  destruct (attach_scan_full symbol tf ob X)
    as [[-> Hnone]|(i0 & mx & Hx & Hlast0 & ->)].
  - split; [done|]. split.
    + intros i md Hmd (tf' & Htf' & Hl).
      apply elem_of_app in Htf' as [Htf'|Htf'].
      * apply (Hset i md Hmd). by exists tf'.
      * apply list_elem_of_singleton in Htf' as ->.
        exfalso. apply (Hnone i). by apply Hlast.
    + intros i md Hmd Hnot. apply (Hkeep i md Hmd).
      intros (tf' & Htf' & Hl). apply Hnot. exists tf'.
      split; [|done]. apply elem_of_app. by left.
  - pose proof (lookup_lt_Some _ _ _ Hx) as Hi0.
    destruct (attached_from_lookup _ _ _ _ _ Hfrom Hx) as (md0 & Hmd0 & Hmx).
    assert (Hidem : set_order_book ob mx = set_order_book ob md0)
      by (by destruct Hmx as [->| ->]).
    apply Hlast in Hlast0.
    split; [|split].
    + split; [by rewrite length_insert; apply Hfrom|].
      intros i md Hmd. destruct (decide (i = i0)) as [->|Hne].
      * right. rewrite list_lookup_insert_eq by done. congruence.
      * rewrite list_lookup_insert_ne by done. by apply Hfrom.
    + intros i md Hmd (tf' & Htf' & Hl). destruct (decide (i = i0)) as [->|Hne].
      * rewrite list_lookup_insert_eq by done. congruence.
      * rewrite list_lookup_insert_ne by done.
        apply elem_of_app in Htf' as [Htf'|Htf'].
        -- apply (Hset i md Hmd). by exists tf'.
        -- apply list_elem_of_singleton in Htf' as ->.
           by destruct (Hne (last_of_pair_unique _ _ _ _ _ Hl Hlast0)).
    + intros i md Hmd Hnot. destruct (decide (i = i0)) as [->|Hne].
      * exfalso. apply Hnot. exists tf. split; [|done].
        apply elem_of_app. right. by left.
      * rewrite list_lookup_insert_ne by done. apply (Hkeep i md Hmd).
        intros (tf' & Htf' & Hl). apply Hnot. exists tf'.
        split; [|done]. apply elem_of_app. by left.
Qed.

(** C4 (as stated) fails: when the exchange hands the candles of a pair
    newest first, the order book goes to the record accumulated last, whose
    timestamp (1) is not the maximum (2) of the pair. *)
Lemma attach_newest_first_not_maximum :
  map stamp_and_book
      (all_market_data
         (collect_records newest_first_env ref_sort ref.lib
                          ["BTC/USDT"] ["1h"] (mkRun [] [])).2)
  = [(2, false); (1, true)].
Proof. vm_compute. reflexivity. Qed.

(** C4 (as the code has it): the attachment block changes nothing but the
    order-book field; for every timeframe it assigns the snapshot to the
    last accumulated record of the (symbol, timeframe) pair in list order
    and leaves every other record as it was, so at most one record per pair
    is modified; that record has the maximum timestamp of the pair whenever
    the accumulated records of the pair are in ascending timestamp order. *)
Theorem attach_orderbook_last (symbol : string) (timeframes : list string)
    (ob : OrderBook) (all : list MarketData) :
  let later := attach_orderbook symbol timeframes ob all in
  length later = length all
  /\ (forall i md, all !! i = Some md ->
        exists md', later !! i = Some md'
          /\ ohlcv md' = ohlcv md /\ indicators md' = indicators md
          /\ ((exists tf, tf ∈ timeframes /\ last_of_pair symbol tf all i) ->
              order_book_snapshot md' = Some ob)
          /\ (~ (exists tf, tf ∈ timeframes /\ last_of_pair symbol tf all i) ->
              md' = md))
  /\ (forall i j mdi mdj,
        all !! i = Some mdi -> all !! j = Some mdj ->
        ohlcv_symbol (ohlcv mdi) = ohlcv_symbol (ohlcv mdj) ->
        ohlcv_timeframe (ohlcv mdi) = ohlcv_timeframe (ohlcv mdj) ->
        later !! i <> Some mdi -> later !! j <> Some mdj -> i = j)
  /\ (forall tf i md,
        last_of_pair symbol tf all i -> all !! i = Some md ->
        pair_ascending symbol tf all ->
        forall j md', all !! j = Some md' ->
          is_pair symbol tf md' = true ->
          ohlcv_timestamp (ohlcv md') <= ohlcv_timestamp (ohlcv md)).
Proof.
  destruct (attach_orderbook_cells symbol timeframes ob all)
    as ([Hlen Hcells] & Hset & Hkeep).
  cbn zeta. split; [done|]. split; [|split].
  - intros i md Hmd. destruct (Hcells i md Hmd) as [H|H].
    + exists md. repeat split; try done.
      intros Htarget. rewrite (Hset i md Hmd Htarget) in H.
      injection H as <-. reflexivity.
    + exists (set_order_book ob md). repeat split; try done.
      intros Hnot. rewrite (Hkeep i md Hmd Hnot) in H. congruence.
  - intros i j mdi mdj Hi Hj Hsym Htf Hmod_i Hmod_j.
    destruct (decide (i = j)) as [|Hne]; [done|]. exfalso.
    apply Hmod_i, (Hkeep i mdi Hi). intros (tf & _ & Hl_i).
    apply Hmod_j, (Hkeep j mdj Hj). intros (tf' & _ & Hl_j).
    apply Hne.
    pose proof Hl_i as [(m & Hm & Hp) _]. rewrite Hi in Hm. injection Hm as <-.
    pose proof Hl_j as [(m & Hm & Hp') _]. rewrite Hj in Hm. injection Hm as <-.
    apply is_pair_spec in Hp as [_ Hp], Hp' as [_ Hp'].
    assert (tf' = tf) as -> by congruence.
    by apply (last_of_pair_unique symbol tf all).
  - intros tf i md [(m & Hm & Hp) Hafter] Hmd Hasc j md' Hmd' Hp'.
    rewrite Hmd in Hm. injection Hm as <-.
    destruct (Nat.lt_trichotomy j i) as [Hlt|[->|Hgt]].
    + by apply (Hasc j i md' md Hlt Hmd' Hmd Hp').
    + rewrite Hmd in Hmd'. injection Hmd' as ->. lia.
    + rewrite (Hafter j md' Hgt Hmd') in Hp'. done.
Qed.

Lemma attach_orderbook_last_witness :
  map stamp_and_book
      (attach_orderbook "BTC/USDT" ["1h"] (book [] []) two_records)
  = [(1, false); (2, true)]
  /\ forall j md', two_records !! j = Some md' ->
       is_pair "BTC/USDT" "1h" md' = true ->
       ohlcv_timestamp (ohlcv md') <= 2.
Proof.
  split; [reflexivity|].
  destruct (attach_orderbook_last "BTC/USDT" ["1h"] (book [] []) two_records)
    as (_ & _ & _ & Hmax).
  apply (Hmax "1h" 1%nat
           (mkMarketData (candle_at 2 101) (no_indicators (candle_at 2 101)) None)).
  - split; [eexists; split; reflexivity|].
    intros [|[|j]] md Hj Hlook; [lia|lia|discriminate Hlook].
  - reflexivity.
  - intros [|[|j]] [|[|k]] mdj mdk Hjk Hj Hk _ _; try lia; try discriminate.
    injection Hj as <-. injection Hk as <-. cbn. lia.
Defined.

(** * The batch handed to the storage sink *)

Lemma key_leb_total (k1 k2 : string * string * Z) :
  key_leb k1 k2 = true \/ key_leb k2 k1 = true.
Proof.
  destruct k1 as [[s1 f1] t1], k2 as [[s2 f2] t2]. unfold key_leb.
  rewrite (String.eqb_sym s2 s1), (String.eqb_sym f2 f1).
  destruct (String.eqb s1 s2); [|apply String.leb_total].
  destruct (String.eqb f1 f2); [lia|apply String.leb_total].
Qed.

(** [DataProcessor.dataframe_to_csv] returns its rows sorted by symbol, then
    timeframe, then timestamp. *)
Lemma dataframe_to_csv_sorted (pd : PandasSort) (l : list MarketData)
    (rows : list pydict) :
  dataframe_to_csv pd l = Ok rows -> rows_sorted rows.
Proof.
  destruct l as [|md l]; cbn -[mapM]; [intros [= <-]; constructor|].
  destruct (mapM to_dict (md :: l)) as [data|e]; cbn; [|done].
  intros [= <-]. apply (sort_values_sorted pd).
  intros r1 r2. apply key_leb_total.
Qed.

(** [DataStorage.save_market_data_list] hands the flattened records to the
    file in the order of the list: nothing on this path sorts them. *)
Lemma save_market_data_list_order
    (candles : string -> string -> outcome (list (raw RawCandle)))
    (book : string -> outcome RawOrderBook)
    (l : list MarketData) (rows : list pydict) (w : list (list pydict)) :
  l <> [] ->
  mapM to_dict l = Ok rows ->
  save_market_data_list (table_env candles book) l w = (Ok true, w ++ [rows]).
Proof.
  intros Hne Hrows. destruct l as [|md l]; [done|].
  unfold save_market_data_list, call, mbind, M_bind. rewrite Hrows.
  destruct rows as [|row rows]; [|done].
  cbn in Hrows. destruct (to_dict md); [|done]. cbn in Hrows.
  by destruct (mapM to_dict l).
Qed.

(** C3 at the default configuration, one candle per pair: the run succeeds
    and hands the sink one batch, in accumulation order (symbols outer,
    timeframes inner); the batch is not sorted by timeframe, whereas
    [dataframe_to_csv], which the run never calls, would sort the same
    records. *)
Theorem collect_data_batch_unsorted :
  exists (batch sorted : list pydict),
    collect_data one_candle_env ref_sort ref.lib
                 default_symbols default_timeframes []
    = (Ok true, [batch])
    /\ map row_sort_key batch
       = [ ("BTC/USDT", "1h", 1); ("BTC/USDT", "4h", 1); ("BTC/USDT", "1d", 1);
           ("ETH/USDT", "1h", 1); ("ETH/USDT", "4h", 1); ("ETH/USDT", "1d", 1) ]
    /\ ~ rows_sorted batch
    /\ dataframe_to_csv ref_sort
         (all_market_data
            (collect_records one_candle_env ref_sort ref.lib
                             default_symbols default_timeframes
                             (mkRun [] [])).2)
       = Ok sorted
    /\ map row_sort_key sorted
       = [ ("BTC/USDT", "1d", 1); ("BTC/USDT", "1h", 1); ("BTC/USDT", "4h", 1);
           ("ETH/USDT", "1d", 1); ("ETH/USDT", "1h", 1); ("ETH/USDT", "4h", 1) ]
    /\ rows_sorted sorted.
Proof.
  eexists. eexists.
  split; [vm_compute; reflexivity|].
  split; [vm_compute; reflexivity|].
  split.
  { intros Hsorted.
    apply Sorted_inv in Hsorted as [Hsorted _].
    apply Sorted_inv in Hsorted as [_ Hhd].
    apply HdRel_inv in Hhd. vm_compute in Hhd. discriminate Hhd. }
  split; [vm_compute; reflexivity|].
  split; [vm_compute; reflexivity|].
  repeat (apply Sorted_cons; [|first [apply HdRel_nil | apply HdRel_cons; vm_compute; reflexivity]]).
  apply Sorted_nil.
Qed.

(** * Further properties of the indicator engine *)

Lemma assign_then {A} (name : string) (e : DataFrame -> outcome Series)
    (rest : M DataFrame A) (s : DataFrame) :
  (assign name e ≫= fun _ => rest) s
  = match e s with
    | Ok col => rest (set_column name col s)
    | Raise err => (Raise err, s)
    end.
Proof. unfold assign, call, modify, mbind, M_bind. by destruct (e s). Qed.

Lemma assign_state (name : string) (e : DataFrame -> outcome Series)
    (s : DataFrame) :
  (assign name e s).2
  = match e s with
    | Ok col => set_column name col s
    | Raise _ => s
    end.
Proof. unfold assign, call, modify, mbind, M_bind. by destruct (e s). Qed.

Lemma call_then {S A B} (f : S -> outcome A) (k : A -> M S B) (s : S) :
  (call f ≫= k) s
  = match f s with
    | Ok a => k a s
    | Raise err => (Raise err, s)
    end.
Proof. unfold call, mbind, M_bind. by destruct (f s). Qed.

Lemma cols_set_column (name : string) (series : Series) (df : DataFrame) :
  col_close (set_column name series df) = col_close df
  /\ col_high (set_column name series df) = col_high df
  /\ col_low (set_column name series df) = col_low df
  /\ col_volume (set_column name series df) = col_volume df.
Proof. apply cols_ohlcv, set_column_ohlcv. Qed.

Lemma col_close_set_column (name : string) (series : Series) (df : DataFrame) :
  col_close (set_column name series df) = col_close df.
Proof. apply cols_set_column. Qed.

Lemma col_high_set_column (name : string) (series : Series) (df : DataFrame) :
  col_high (set_column name series df) = col_high df.
Proof. apply cols_set_column. Qed.

Lemma col_low_set_column (name : string) (series : Series) (df : DataFrame) :
  col_low (set_column name series df) = col_low df.
Proof. apply cols_set_column. Qed.

Lemma col_volume_set_column (name : string) (series : Series) (df : DataFrame) :
  col_volume (set_column name series df) = col_volume df.
Proof. apply cols_set_column. Qed.

(** The [try] block assigns the columns of the fields up to the first
    library call that raises on the frame, and no other. *)
Lemma indicator_block_exact (lib : ta.Lib) (df : DataFrame) :
  (indicator_block lib df).2
  = set_columns (ok_columns lib df assignment_order) df.
Proof.
  unfold indicator_block, assignment_order, set_columns.
  cbn [ok_columns lib_series].
  repeat
    (first [rewrite assign_then | rewrite call_then | rewrite assign_state];
     rewrite ?col_close_set_column, ?col_high_set_column,
             ?col_low_set_column, ?col_volume_set_column;
     match goal with
     | |- context [match ?c with Ok _ => _ | Raise _ => _ end] =>
         destruct c eqn:?
     end; cbn [mbind outcome_bind foldl fst snd]; [|reflexivity]).
  reflexivity.
Qed.

Lemma set_columns_snoc (cols : list (ind_field * Series)) (f : ind_field)
    (col : Series) (df : DataFrame) :
  set_columns (cols ++ [(f, col)]) df
  = set_column (field_name f) col (set_columns cols df).
Proof. unfold set_columns. by rewrite foldl_snoc. Qed.

Lemma set_columns_ohlcv (cols : list (ind_field * Series)) (df : DataFrame) :
  map row_ohlcv (set_columns cols df) = map row_ohlcv df.
Proof.
  induction cols as [|[f col] cols IH] using rev_ind; [done|].
  by rewrite set_columns_snoc, set_column_ohlcv.
Qed.

(** A cell of a frame after a list of column assignments: the value of the
    assigned series at the row's position, or the cell the row had. *)
Lemma set_columns_cell (cols : list (ind_field * Series)) (df : DataFrame)
    (i : nat) (r' : Row) (g : ind_field) :
  set_columns cols df !! i = Some r' ->
  exists r,
    df !! i = Some r /\ row_ohlcv r' = row_ohlcv r
    /\ (g ∉ map fst cols ->
        row_float (field_name g) r' = row_float (field_name g) r)
    /\ (forall col, (g, col) ∈ cols ->
          (forall col', (g, col') ∈ cols -> col' = col) ->
          row_float (field_name g) r' = Some (nth i col nan)).
Proof.
  revert r'. induction cols as [|[f c] cols IH] using rev_ind; intros r'.
  { intros Hr. exists r'. repeat split; try done.
    intros col Hin. by apply elem_of_nil in Hin. }
  rewrite set_columns_snoc, set_column_lookup.
  destruct (set_columns cols df !! i) as [r1|] eqn:Hr1; [|done].
  intros [= <-]. destruct (IH r1 eq_refl) as (r & Hr & Hohlcv & Hout & Hin).
  exists r. split; [done|]. split; [done|].
  unfold row_float in *; cbn [row_extra]. rewrite extra_get_set. split.
  - intros Hnotin. rewrite map_app in Hnotin.
    destruct (String.eqb_spec (field_name g) (field_name f)) as [Heq|_].
    + apply field_name_inj in Heq as ->. exfalso. apply Hnotin.
      apply elem_of_app. right. cbn. by left.
    + apply Hout. intros H. apply Hnotin, elem_of_app. by left.
  - intros col Hcol Hsame.
    destruct (String.eqb_spec (field_name g) (field_name f)) as [Heq|Hne].
    + apply field_name_inj in Heq as ->. f_equal. f_equal.
      apply Hsame, elem_of_app. right. by left.
    + apply elem_of_app in Hcol as [Hcol|Hcol].
      * apply (Hin col Hcol). intros col' Hcol'.
        apply Hsame, elem_of_app. by left.
      * apply list_elem_of_singleton in Hcol. congruence.
Qed.

Lemma ok_columns_elem (lib : ta.Lib) (df0 : DataFrame)
    (fields : list ind_field) (f : ind_field) (col : Series) :
  (f, col) ∈ ok_columns lib df0 fields ->
  f ∈ fields /\ lib_series lib f df0 = Ok col.
Proof.
  induction fields as [|g fields IH]; cbn; [intros H; by apply elem_of_nil in H|].
  destruct (lib_series lib g df0) as [c|e] eqn:Hg;
    [|intros H; by apply elem_of_nil in H].
  intros [[= -> ->]|Hin]%elem_of_cons.
  - split; [by left|done].
  - destruct (IH Hin). split; [by right|done].
Qed.

Lemma ok_columns_all (lib : ta.Lib) (df0 : DataFrame)
    (fields : list ind_field) (f : ind_field) (col : Series) :
  (forall g, g ∈ fields -> exists c, lib_series lib g df0 = Ok c) ->
  f ∈ fields -> lib_series lib f df0 = Ok col ->
  (f, col) ∈ ok_columns lib df0 fields.
Proof.
  induction fields as [|g fields IH]; intros Hall Hf Hcol;
    [by apply elem_of_nil in Hf|].
  cbn. destruct (Hall g) as [c Hc]; [by left|]. rewrite Hc.
  apply elem_of_cons in Hf as [->|Hf].
  - assert (c = col) as -> by congruence. by left.
  - right. apply IH; [|done..]. intros h Hh. apply Hall. by right.
Qed.

Lemma ok_columns_stop (lib : ta.Lib) (df0 : DataFrame)
    (fields : list ind_field) (f g : ind_field) (e : exn) :
  NoDup fields ->
  lib_series lib f df0 = Raise e ->
  g ∈ from_field f fields ->
  g ∉ map fst (ok_columns lib df0 fields).
Proof.
  induction fields as [|h fields IH]; cbn; intros Hnodup Hraise Hg;
    [by apply elem_of_nil in Hg|].
  apply NoDup_cons in Hnodup as [Hh Hnodup].
  destruct (decide (h = f)) as [->|Hne].
  - rewrite Hraise. apply not_elem_of_nil.
  - destruct (lib_series lib h df0) as [c|e'] eqn:Hc; [|apply not_elem_of_nil].
    cbn. intros [->|Hin]%elem_of_cons.
    + apply Hh. clear -Hg. induction fields as [|k fields IH]; cbn in Hg;
        [by apply elem_of_nil in Hg|].
      destruct (decide (k = f)); [done|]. right. by apply IH.
    + by apply (IH Hnodup Hraise Hg).
Qed.


Lemma assignment_order_NoDup : NoDup assignment_order.
Proof. apply (bool_decide_unpack _). vm_compute. exact I. Qed.

Lemma assignment_order_all (f : ind_field) : f ∈ assignment_order.
Proof. destruct f; apply (bool_decide_unpack _); vm_compute; exact I. Qed.

(** X1: the indicator set built from a frame row carries the row's symbol,
    timeframe, timestamp and datetime, and each of its fourteen indicator
    fields is the row's cell of that name, unchanged; the field is [None]
    when the row has no such column. *)
Theorem indicator_set_of_row (row : Row) :
  let ind := TechnicalIndicators_init (convert_to_technical_indicators row) in
  ti_key ind = ohlcv_key (row_ohlcv row)
  /\ ti_datetime ind = ohlcv_datetime (row_ohlcv row)
  /\ forall f : ind_field,
       ti_get f ind = extra_get (field_name f) (row_extra row).
Proof.
  cbn zeta. split; [done|]. split; [done|]. intros f.
  apply ti_get_init_convert.
Qed.

(** X2: whatever the library does, [calculate_indicators] returns: the frame
    it returns holds the candles of the given frame, none lost and none
    added, in ascending timestamp order, with the columns of the fields up
    to the first library call that raised. *)
Theorem calculate_indicators_candles (pd : PandasSort) (lib : ta.Lib)
    (df : DataFrame) :
  exists df' : DataFrame,
    calculate_indicators pd lib df = Ok df'
    /\ map row_ohlcv df' ≡ₚ map row_ohlcv df
    /\ Sorted Z.le (map row_timestamp df')
    /\ (df <> [] ->
        let sorted := sort_values pd by_timestamp df in
        df' = set_columns (ok_columns lib sorted assignment_order) sorted).
Proof.
  destruct df as [|r df].
  { exists []. repeat split; done. }
  eexists. split; [by apply calculate_indicators_runs|].
  rewrite indicator_block_exact.
  split; [|split; [|done]].
  - rewrite set_columns_ohlcv. as_fmap.
    apply fmap_Permutation, sort_by_timestamp_perm.
  - unfold row_timestamp.
    rewrite <- (map_map row_ohlcv ohlcv_timestamp), set_columns_ohlcv, map_map.
    apply StronglySorted_Sorted.
    apply (StronglySorted_fmap row_timestamp
             (fun r1 r2 => row_timestamp r1 <= row_timestamp r2) Z.le);
      [done|apply sort_by_timestamp_sorted].
Qed.

(** The value of a field in the i-th indicator set: the library's value at
    position i when the column was assigned, [None] when it was not. *)
Lemma indicator_cell (pd : PandasSort) (lib : ta.Lib) (l : list OHLCV)
    (inds : list TechnicalIndicators) (i : nat) (ind : TechnicalIndicators)
    (g : ind_field) :
  calculate_technical_indicators pd lib l = Ok inds ->
  inds !! i = Some ind ->
  (g ∉ map fst (ok_columns lib (engine_frame pd l) assignment_order) ->
   ti_get g ind = None)
  /\ (forall col,
        (g, col) ∈ ok_columns lib (engine_frame pd l) assignment_order ->
        ti_get g ind = Some (nth i col nan)).
Proof.
  rewrite calculate_technical_indicators_runs. intros [= <-].
  destruct l as [|c l]; [done|].
  rewrite indicator_block_exact. as_fmap. rewrite list_lookup_fmap.
  destruct (set_columns _ _ !! i) as [r'|] eqn:Hr'; [|done].
  intros [= <-]. rewrite ti_get_init_convert.
  destruct (set_columns_cell _ _ _ _ g Hr') as (r & Hr & _ & Hout & Hin).
  split.
  - intros Hnotin. rewrite (Hout Hnotin).
    pose proof (engine_frame_fresh pd (c :: l)) as Hfresh.
    rewrite Forall_lookup in Hfresh. unfold row_float.
    by rewrite (Hfresh i r Hr).
  - intros col Hcol. apply (Hin col Hcol). intros col' Hcol'.
    apply ok_columns_elem in Hcol as [_ Hcol], Hcol' as [_ Hcol'].
    congruence.
Qed.

Lemma calculate_indicators_candles_witness :
  let df := map (fun o => mkRow o []) three_candles_shuffled in
  let sorted := sort_values ref_sort by_timestamp df in
  calculate_indicators ref_sort ref.lib df
  = Ok (set_columns (ok_columns ref.lib sorted assignment_order) sorted).
Proof.
  cbv zeta.
  destruct (calculate_indicators_candles ref_sort ref.lib
              (map (fun o => mkRow o []) three_candles_shuffled))
    as (df' & -> & _ & _ & Heq).
  f_equal. apply Heq. discriminate.
Defined.

(** X3: when no library call raises on the series, every indicator field of
    the i-th indicator set holds the value the library returned for that
    indicator at position i of the timestamp-ordered series; no field is
    left [None]. *)
Theorem all_indicators_present (pd : PandasSort) (lib : ta.Lib)
    (l : list OHLCV) (inds : list TechnicalIndicators) :
  (forall f : ind_field,
      exists col, lib_series lib f (engine_frame pd l) = Ok col) ->
  calculate_technical_indicators pd lib l = Ok inds ->
  forall (i : nat) (ind : TechnicalIndicators) (f : ind_field) (col : Series),
    inds !! i = Some ind ->
    lib_series lib f (engine_frame pd l) = Ok col ->
    ti_get f ind = Some (nth i col nan).
Proof.
  intros Hall Hinds i ind f col Hind Hcol.
  apply (indicator_cell pd lib l inds i ind f Hinds Hind).
  apply ok_columns_all; [|apply assignment_order_all|done].
  intros g _. apply Hall.
Qed.

Lemma fourteen_candles_all_ok (f : ind_field) :
  exists col,
    lib_series ref.lib f (engine_frame ref_sort fourteen_candles) = Ok col.
Proof. destruct f; eexists; vm_compute; reflexivity. Qed.

Lemma all_indicators_present_witness :
  exists inds : list TechnicalIndicators,
    calculate_technical_indicators ref_sort ref.lib fourteen_candles = Ok inds
    /\ forall (i : nat) (ind : TechnicalIndicators) (col : Series),
         inds !! i = Some ind ->
         lib_series ref.lib F_obv (engine_frame ref_sort fourteen_candles)
         = Ok col ->
         obv ind = Some (nth i col nan).
Proof.
  eexists. split; [apply calculate_technical_indicators_runs|].
  intros i ind col Hind Hcol.
  exact (all_indicators_present ref_sort ref.lib fourteen_candles _
           fourteen_candles_all_ok (calculate_technical_indicators_runs _ _ _)
           i ind F_obv col Hind Hcol).
Defined.

(** X4: when the library call of an indicator raises on the series, that
    indicator and every indicator assigned after it are [None] in every
    indicator set of the series: the exception ends the [try] block. *)
Theorem indicators_after_failure (pd : PandasSort) (lib : ta.Lib)
    (l : list OHLCV) (inds : list TechnicalIndicators)
    (f : ind_field) (e : exn) :
  lib_series lib f (engine_frame pd l) = Raise e ->
  calculate_technical_indicators pd lib l = Ok inds ->
  forall (ind : TechnicalIndicators) (g : ind_field),
    ind ∈ inds ->
    g ∈ from_field f assignment_order ->
    ti_get g ind = None.
Proof.
  intros Hraise Hinds ind g Hind Hg.
  apply list_elem_of_lookup in Hind as [i Hind].
  apply (indicator_cell pd lib l inds i ind g Hinds Hind).
  by apply (ok_columns_stop lib _ _ f g e assignment_order_NoDup).
Qed.

Lemma indicators_after_failure_witness :
  exists inds : list TechnicalIndicators,
    calculate_technical_indicators ref_sort ref.lib three_candles = Ok inds
    /\ Forall (fun ind => atr_14 ind = None /\ obv ind = None) inds.
Proof.
  pose proof (calculate_technical_indicators_runs ref_sort ref.lib
                three_candles) as Hinds.
  eexists. split; [exact Hinds|].
  assert (Hraise : lib_series ref.lib F_atr_14
                     (engine_frame ref_sort three_candles) = Raise IndexError)
    by (vm_compute; reflexivity).
  apply Forall_forall. intros ind Hind. split.
  - apply (indicators_after_failure ref_sort ref.lib three_candles
             _ F_atr_14 IndexError Hraise Hinds ind F_atr_14 Hind).
    apply (bool_decide_unpack _). vm_compute. exact I.
  - apply (indicators_after_failure ref_sort ref.lib three_candles
             _ F_atr_14 IndexError Hraise Hinds ind F_obv Hind).
    apply (bool_decide_unpack _). vm_compute. exact I.
Defined.

Lemma calculate_technical_indicators_perm (pd : PandasSort) (lib : ta.Lib)
    (l : list OHLCV) (inds : list TechnicalIndicators) :
  calculate_technical_indicators pd lib l = Ok inds ->
  map ti_key inds ≡ₚ map ohlcv_key l.
Proof.
  intros Hinds. rewrite (calculate_technical_indicators_keys pd lib l _ Hinds).
  as_fmap. apply fmap_Permutation, engine_frame_ohlcv_perm.
Qed.

(** * What an indicator field holds *)



(** X5: for every list of candles, in whatever order and of whatever pairs,
    [calculate_technical_indicators] returns one indicator set per candle;
    the indicator sets come out in ascending timestamp order and their keys
    are the keys of the candles, each as often as it occurs. *)
Theorem indicator_sets_ordered (pd : PandasSort) (lib : ta.Lib)
    (l : list OHLCV) :
  exists inds : list TechnicalIndicators,
    calculate_technical_indicators pd lib l = Ok inds
    /\ length inds = length l
    /\ map ti_key inds ≡ₚ map ohlcv_key l
    /\ Sorted Z.le (map ti_timestamp inds).
Proof.
  destruct (calculate_technical_indicators pd lib l) as [inds|e] eqn:Hinds;
    [|by rewrite calculate_technical_indicators_runs in Hinds].
  exists inds. split; [done|].
  pose proof (calculate_technical_indicators_keys pd lib l _ Hinds) as Hkeys.
  pose proof (calculate_technical_indicators_perm pd lib l _ Hinds) as Hperm.
  split; [|split; [done|]].
  - rewrite <- (length_map ti_key inds), <- (length_map ohlcv_key l).
    by apply Permutation_length.
  - assert (map ti_timestamp inds
            = map row_timestamp (engine_frame pd l)) as ->.
    { transitivity (map snd (map ti_key inds)); [by rewrite map_map|].
      rewrite Hkeys. by rewrite !map_map. }
    apply StronglySorted_Sorted.
    apply (StronglySorted_fmap row_timestamp
             (fun r1 r2 => row_timestamp r1 <= row_timestamp r2) Z.le);
      [done|apply sort_by_timestamp_sorted].
Qed.

(** X6: for every list of candles [process_ohlcv_with_indicators] returns
    one record per candle, in the order given and without an order book;
    the indicator set of every record is one of those computed (the
    fallback to an empty indicator set is never taken) and has the candle's
    timestamp; candles with the same timestamp receive the same indicator
    set. *)
Theorem process_records (pd : PandasSort) (lib : ta.Lib) (l : list OHLCV) :
  exists (inds : list TechnicalIndicators) (out : list MarketData),
    calculate_technical_indicators pd lib l = Ok inds
    /\ process_ohlcv_with_indicators pd lib l = Ok out
    /\ map ohlcv out = l
    /\ Forall (fun md =>
                 order_book_snapshot md = None
                 /\ indicators md ∈ inds
                 /\ ti_timestamp (indicators md) = ohlcv_timestamp (ohlcv md))
              out
    /\ forall md1 md2, md1 ∈ out -> md2 ∈ out ->
         ohlcv_timestamp (ohlcv md1) = ohlcv_timestamp (ohlcv md2) ->
         indicators md1 = indicators md2.
Proof.
  destruct (process_ohlcv_with_indicators_runs pd lib l) as (inds & Hinds & Hout).
  exists inds. eexists. split; [done|]. split; [exact Hout|].
  pose proof (calculate_technical_indicators_perm pd lib l _ Hinds) as Hperm.
  assert (Hfound : forall c, c ∈ l ->
            exists ind, indicators_by_timestamp inds !! ohlcv_timestamp c = Some ind
                        /\ ind ∈ inds /\ ti_timestamp ind = ohlcv_timestamp c).
  { intros c Hc.
    destruct (indicators_by_timestamp_is_Some inds (ohlcv_timestamp c))
      as [ind Hind].
    { assert (map ti_timestamp inds ≡ₚ map ohlcv_timestamp l) as ->.
      { transitivity (map snd (map ti_key inds)); [by rewrite map_map|].
        as_fmap. rewrite Hperm. as_fmap. by rewrite map_map. }
      by apply list_elem_of_fmap_2. }
    exists ind. split; [done|]. by apply indicators_by_timestamp_Some. }
  split; [rewrite map_map; cbn; apply map_id|]. split.
  - as_fmap. apply Forall_fmap, Forall_forall. intros c Hc. cbn.
    destruct (Hfound c Hc) as (ind & -> & Hin & Hts). done.
  - intros md1 md2 Hmd1 Hmd2. as_fmap.
    apply list_elem_of_fmap in Hmd1 as (c1 & -> & Hc1).
    apply list_elem_of_fmap in Hmd2 as (c2 & -> & Hc2).
    cbn. intros Hts. destruct (Hfound c2 Hc2) as (ind & Hlook & _).
    by rewrite Hts, Hlook.
Qed.

(** * Further properties of flattening and storage *)

Lemma mapM_cons {A B} (f : A -> outcome B) (x : A) (l : list A) :
  mapM f (x :: l)
  = match f x with
    | Ok y => match mapM f l with
              | Ok ys => Ok (y :: ys)
              | Raise e => Raise e
              end
    | Raise e => Raise e
    end.
Proof. cbn. destruct (f x); [|done]. cbn. by destruct (mapM f l). Qed.

Lemma mapM_Ok {A B} (f : A -> outcome B) (l : list A) (ys : list B) :
  mapM f l = Ok ys <-> Forall2 (fun x y => f x = Ok y) l ys.
Proof.
  revert ys. induction l as [|x l IH]; intros ys.
  - split; [intros [= <-]; constructor|by inversion 1].
  - rewrite mapM_cons. split.
    + destruct (f x) as [y|e] eqn:Hx; [|done].
      destruct (mapM f l) as [ys'|e'] eqn:Hl; [|done].
      intros [= <-]. constructor; [done|]. by apply IH.
    + inversion 1 as [|? y ? ys' Hy Hrest]; subst.
      apply IH in Hrest. by rewrite Hy, Hrest.
Qed.

Lemma mapM_Raise {A B} (f : A -> outcome B) (l : list A) (e : exn) :
  mapM f l = Raise e -> exists x, x ∈ l /\ f x = Raise e.
Proof.
  induction l as [|x l IH]; [done|]. rewrite mapM_cons.
  destruct (f x) as [y|e'] eqn:Hx.
  - destruct (mapM f l) as [ys|e''] eqn:Hl; [done|].
    intros [= ->]. destruct (IH eq_refl) as (x' & Hin & Hx').
    exists x'. split; [by right|done].
  - intros [= ->]. exists x. split; [by left|done].
Qed.

Lemma mapM_Raise_or_Ok {A B} (f : A -> outcome B) (l : list A) :
  Forall (fun x => exists y, f x = Ok y) l -> exists ys, mapM f l = Ok ys.
Proof.
  induction 1 as [|x l [y Hy] _ [ys Hys]]; [by exists []|].
  exists (y :: ys). by rewrite mapM_cons, Hy, Hys.
Qed.

Lemma to_dict_Raise (md : MarketData) (e : exn) :
  to_dict md = Raise e -> e = ZeroDivisionError.
Proof.
  rewrite to_dict_unfold; cbn zeta.
  destruct (order_book_snapshot md) as [ob|]; [|done].
  destruct (asks ob); [done|]. destruct (bids ob) as [|b0 ?]; [done|].
  destruct (PrimFloat.eqb (price b0) 0); [congruence|done].
Qed.

(** The sort columns of a flattened row are the candle's key. *)
Lemma to_dict_sort_key (md : MarketData) (row : pydict) :
  to_dict md = Ok row -> row_sort_key row = ohlcv_key (ohlcv md).
Proof.
  rewrite to_dict_unfold; cbn zeta.
  destruct (order_book_snapshot md) as [ob|]; [|by intros [= <-]].
  destruct (asks ob); [by intros [= <-]|].
  destruct (bids ob) as [|b0 ?]; [by intros [= <-]|].
  destruct (PrimFloat.eqb (price b0) 0); [done|]. by intros [= <-].
Qed.

(** X7: [dataframe_to_csv] returns the flattened rows of the given records,
    none lost and none added, arranged so that each row's (symbol,
    timeframe, timestamp) is at most the next row's, and these sort keys are
    the keys of the records' candles; it raises only when flattening a
    record raises, which is a [ZeroDivisionError]; when every record
    flattens it returns. *)
Theorem dataframe_to_csv_rows (pd : PandasSort) (l : list MarketData) :
  (forall rows : list pydict,
      dataframe_to_csv pd l = Ok rows ->
      rows_sorted rows
      /\ map row_sort_key rows ≡ₚ map ohlcv_key (map ohlcv l)
      /\ exists data : list pydict,
           Forall2 (fun md row => to_dict md = Ok row) l data
           /\ rows ≡ₚ data)
  /\ (forall e : exn,
        dataframe_to_csv pd l = Raise e ->
        e = ZeroDivisionError
        /\ exists md, md ∈ l /\ to_dict md = Raise ZeroDivisionError)
  /\ (Forall (fun md => exists row, to_dict md = Ok row) l ->
      exists rows, dataframe_to_csv pd l = Ok rows).
Proof.
  split; [|split].
  - intros rows Hrows. split; [by apply (dataframe_to_csv_sorted pd l)|].
    destruct l as [|md l]; [injection Hrows as <-; split; [done|by exists []]|].
    unfold dataframe_to_csv in Hrows.
    destruct (mapM to_dict (md :: l)) as [data|e] eqn:Hdata; [|done].
    cbn in Hrows. injection Hrows as <-.
    apply mapM_Ok in Hdata.
    split; [|exists data; split; [done|apply sort_values_perm]].
    as_fmap. rewrite (sort_values_perm pd).
    assert (row_sort_key <$> data = ohlcv_key <$> (ohlcv <$> (md :: l))) as ->;
      [|done].
    clear -Hdata. induction Hdata as [|m row ms rows Hm _ IH]; [done|].
    cbn. rewrite (to_dict_sort_key m row Hm). f_equal. exact IH.
  - intros e Hraise. destruct l as [|md l]; [done|].
    unfold dataframe_to_csv in Hraise.
    destruct (mapM to_dict (md :: l)) as [data|e'] eqn:Hdata; [done|].
    cbn in Hraise. injection Hraise as ->.
    destruct (mapM_Raise _ _ _ Hdata) as (m & Hin & Hm).
    pose proof (to_dict_Raise m e Hm) as ->. split; [done|]. by exists m.
  - intros Hall. destruct l as [|md l]; [by exists []|].
    destruct (mapM_Raise_or_Ok to_dict (md :: l) Hall) as [data Hdata].
    eexists. unfold dataframe_to_csv. by rewrite Hdata.
Qed.

Lemma dataframe_to_csv_rows_witness :
  exists rows : list pydict,
    dataframe_to_csv ref_sort (reverse two_records) = Ok rows
    /\ rows_sorted rows
    /\ map row_sort_key rows
       ≡ₚ map ohlcv_key (map ohlcv (reverse two_records)).
Proof.
  destruct (dataframe_to_csv_rows ref_sort (reverse two_records))
    as (Hok & _ & Hall).
  destruct Hall as [rows Hrows].
  { repeat constructor; eexists; reflexivity. }
  exists rows. split; [done|].
  destruct (Hok rows Hrows) as (Hsorted & Hkeys & _). done.
Defined.

Lemma mapM_Raise_intro {A B} (f : A -> outcome B) (l : list A) (x : A) (e : exn) :
  x ∈ l -> f x = Raise e -> exists e', mapM f l = Raise e'.
Proof.
  induction l as [|y l IH]; [intros H; by apply elem_of_nil in H|].
  intros Hin Hx. rewrite mapM_cons.
  destruct (f y) as [b|e1] eqn:Hy; [|by exists e1].
  apply elem_of_cons in Hin as [->|Hin]; [congruence|].
  destruct (IH Hin Hx) as [e' ->]. by exists e'.
Qed.

(** X8: [append_to_dataset] (that is, [save_market_data_list]) returns
    [False] without calling the writer for an empty list; when flattening
    some record raises (a zero best bid), the exception propagates and the
    writer is not called; otherwise the flattened rows go to the writer
    once, in list order, and the result is [True] when the writer returns
    and [False] when it raises. *)
Theorem append_to_dataset_outcome {W : Type} (env : Env W)
    (l : list MarketData) (w : W) :
  (l = [] -> append_to_dataset env l w = (Ok false, w))
  /\ (forall md, md ∈ l -> to_dict md = Raise ZeroDivisionError ->
        append_to_dataset env l w = (Raise ZeroDivisionError, w))
  /\ (l <> [] -> Forall (fun md => exists row, to_dict md = Ok row) l ->
      exists rows : list pydict,
        Forall2 (fun md row => to_dict md = Ok row) l rows
        /\ append_to_dataset env l w
           = match to_csv env rows w with
             | (Ok _, w') => (Ok true, w')
             | (Raise _, w') => (Ok false, w')
             end).
Proof.
  unfold append_to_dataset. split; [by intros ->|]. split.
  - intros md Hin Hmd. destruct l as [|md0 l]; [by apply elem_of_nil in Hin|].
    destruct (mapM_Raise_intro to_dict _ md _ Hin Hmd) as [e He].
    destruct (mapM_Raise _ _ _ He) as (m & _ & Hm).
    pose proof (to_dict_Raise m e Hm) as ->.
    unfold save_market_data_list. rewrite call_then. by rewrite He.
  - intros Hne Hall. destruct l as [|md0 l]; [done|].
    destruct (mapM_Raise_or_Ok to_dict _ Hall) as [rows Hrows].
    exists rows. split; [by apply mapM_Ok|].
    unfold save_market_data_list. rewrite call_then, Hrows.
    apply mapM_Ok in Hrows. inversion Hrows as [|? row ? rows' _ _]; subst.
    unfold save_to_csv, try_except, mbind, M_bind.
    by destruct (to_csv env (row :: rows') w) as [[[]|e] w'].
Qed.

Lemma append_to_dataset_outcome_witness :
  append_to_dataset one_candle_env [zero_bid_record; quoted_record] []
  = (Raise ZeroDivisionError, [])
  /\ exists rows : list pydict,
       append_to_dataset one_candle_env two_records []
       = (Ok true, [rows]).
Proof.
  split.
  - apply (append_to_dataset_outcome one_candle_env
             [zero_bid_record; quoted_record] [] ) with (md := zero_bid_record).
    + by left.
    + reflexivity.
  - destruct (append_to_dataset_outcome one_candle_env two_records [])
      as (_ & _ & Hok).
    destruct Hok as (rows & _ & Hrows).
    + discriminate.
    + repeat constructor; eexists; reflexivity.
    + exists rows. exact Hrows.
Defined.

(** * The exchange service *)

Lemma mapM_candle_of_item {W : Type} (env : Env W)
    (symbol timeframe : string) (items : list (raw RawCandle)) :
  match mapM (candle_of_item env symbol timeframe) items with
  | Ok l =>
      forallb (candle_ok env) items = true
      /\ map candle_raw l = items
      /\ single_pair symbol timeframe l
      /\ Forall (fun c =>
                   ohlcv_datetime c = fromtimestamp_ms (ohlcv_timestamp c)) l
  | Raise _ => forallb (candle_ok env) items = false
  end.
Proof.
  induction items as [|item items IH]; [by repeat split; constructor|].
  rewrite mapM_cons. cbn [forallb].
  unfold candle_of_item at 1, datetime_fromtimestamp.
  destruct item as [[[[[[ts o] h] lo] cl] v]|]; cbn; [|done].
  destruct (datetime_range env ts); cbn; [|done].
  destruct (mapM (candle_of_item env symbol timeframe) items) as [l|e];
    [|done].
  destruct IH as (Hok & Hraw & Hpair & Hdt).
  split; [done|]. split; [by rewrite <- Hraw|].
  split; by constructor.
Qed.

Lemma fetch_historical_ohlcv_tagged {W : Type} (env : Env W)
    (symbol timeframe : string) (limit : nat) (w : W) :
  exists (l : list OHLCV) (w' : W),
    fetch_historical_ohlcv env symbol timeframe limit w = (Ok l, w')
    /\ single_pair symbol timeframe l
    /\ match fetch_ohlcv env symbol timeframe limit w with
       | (Ok items, w1) =>
           w' = w1
           /\ if forallb (candle_ok env) items then map candle_raw l = items
              else l = []
       | (Raise _, w1) => w' = w1 /\ l = []
       end.
Proof.
  unfold fetch_historical_ohlcv, try_except, mbind, M_bind, call.
  destruct (fetch_ohlcv env symbol timeframe limit w) as [[items|e] w1].
  - pose proof (mapM_candle_of_item env symbol timeframe items) as Hitems.
    destruct (mapM (candle_of_item env symbol timeframe) items) as [l|e].
    + destruct Hitems as (-> & Hraw & Hpair & _). by exists l, w1.
    + rewrite Hitems. exists [], w1. repeat split; constructor.
  - exists [], w1. repeat split; constructor.
Qed.

Lemma mapM_level_of_item (items : list (raw (float * float))) :
  match mapM level_of_item items with
  | Ok levels =>
      forallb well_formed items = true /\ map level_raw levels = items
  | Raise _ => forallb well_formed items = false
  end.
Proof.
  induction items as [|item items IH]; [done|].
  rewrite mapM_cons. cbn [forallb].
  destruct item as [[p a]|]; cbn; [|done].
  destruct (mapM level_of_item items) as [levels|e]; [|done].
  destruct IH as [Hok Hraw]. split; [done|]. by rewrite <- Hraw.
Qed.

Lemma fetch_orderbook_symbol {W : Type} (env : Env W)
    (symbol : string) (limit : nat) (w : W) :
  exists (o : option OrderBook) (w' : W),
    fetch_orderbook env symbol limit w = (Ok o, w')
    /\ forall ob, o = Some ob -> ob_symbol ob = symbol.
Proof.
  unfold fetch_orderbook, try_except, mbind, M_bind, call.
  destruct (fetch_order_book env symbol limit w) as [[data|e] w1];
    [|by exists None, w1].
  destruct (mapM level_of_item (raw_bids data)) as [bids|e];
    [|by exists None, w1].
  destruct (mapM level_of_item (raw_asks data)) as [asks|e];
    [|by exists None, w1].
  destruct (get_timestamp data (time_ms env w1)) as [ms|];
    [|by exists None, w1].
  unfold datetime_fromtimestamp. cbn.
  destruct (datetime_range env ms); cbn; [|by exists None, w1].
  eexists. eexists. split; [reflexivity|]. by intros ob [= <-].
Qed.

(** X9: [fetch_historical_ohlcv] never raises.  When the exchange request
    raises it returns the empty list.  When every item received is well
    formed and has a timestamp that converts to a datetime, it returns one
    candle per item, in the order received and with the item's six values,
    each carrying the requested symbol and timeframe and the datetime of
    its timestamp.  When one item is not, it returns the empty list: the
    candles built before that item are dropped with it. *)
Theorem fetch_historical_ohlcv_result {W : Type} (env : Env W)
    (symbol timeframe : string) (limit : nat) (w : W) :
  exists (l : list OHLCV) (w' : W),
    fetch_historical_ohlcv env symbol timeframe limit w = (Ok l, w')
    /\ single_pair symbol timeframe l
    /\ Forall (fun c => ohlcv_datetime c = fromtimestamp_ms (ohlcv_timestamp c)) l
    /\ match fetch_ohlcv env symbol timeframe limit w with
       | (Ok items, w1) =>
           w' = w1
           /\ if forallb (candle_ok env) items then map candle_raw l = items
              else l = []
       | (Raise _, w1) => w' = w1 /\ l = []
       end.
Proof.
  destruct (fetch_historical_ohlcv_tagged env symbol timeframe limit w)
    as (l & w' & Hfetch & Hpair & Hraw).
  exists l, w'. split; [done|]. split; [done|]. split; [|done].
  revert Hfetch.
  unfold fetch_historical_ohlcv, try_except, mbind, M_bind, call.
  destruct (fetch_ohlcv env symbol timeframe limit w) as [[items|e] w1].
  - pose proof (mapM_candle_of_item env symbol timeframe items) as Hitems.
    destruct (mapM (candle_of_item env symbol timeframe) items) as [l'|e].
    + intros [= <- _]. by destruct Hitems as (_ & _ & _ & Hdt).
    + intros [= <- _]. constructor.
  - intros [= <- _]. constructor.
Qed.

(** X10: [fetch_orderbook] never raises.  When the exchange request raises
    it returns [None].  When every raw level is well formed and the
    timestamp (the clock's reading when the key is missing) is a number that
    converts to a datetime, it returns an order book for the requested
    symbol with that timestamp and its datetime, whose bids and asks are the
    raw levels in the order received.  Otherwise (a [None] timestamp, one
    out of the calendar's range, a malformed level) it returns [None]. *)
Theorem fetch_orderbook_result {W : Type} (env : Env W)
    (symbol : string) (limit : nat) (w : W) :
  exists (o : option OrderBook) (w' : W),
    fetch_orderbook env symbol limit w = (Ok o, w')
    /\ match fetch_order_book env symbol limit w with
       | (Ok data, w1) =>
           w' = w1
           /\ if book_ok env (time_ms env w1) data
              then exists ob,
                     o = Some ob
                     /\ ob_symbol ob = symbol
                     /\ get_timestamp data (time_ms env w1)
                        = Some (ob_timestamp ob)
                     /\ ob_datetime ob = fromtimestamp_ms (ob_timestamp ob)
                     /\ map level_raw (bids ob) = raw_bids data
                     /\ map level_raw (asks ob) = raw_asks data
              else o = None
       | (Raise _, w1) => w' = w1 /\ o = None
       end.
Proof.
  unfold fetch_orderbook, try_except, mbind, M_bind, call, book_ok.
  destruct (fetch_order_book env symbol limit w) as [[data|e] w1];
    [|by exists None, w1].
  pose proof (mapM_level_of_item (raw_bids data)) as Hbids.
  pose proof (mapM_level_of_item (raw_asks data)) as Hasks.
  destruct (mapM level_of_item (raw_bids data)) as [bs|e];
    [destruct Hbids as [-> Hbids]|rewrite Hbids; by exists None, w1].
  destruct (mapM level_of_item (raw_asks data)) as [az|e];
    [destruct Hasks as [-> Hasks]|rewrite Hasks; by exists None, w1].
  cbn [andb].
  destruct (get_timestamp data (time_ms env w1)) as [ms|];
    [|by exists None, w1].
  unfold datetime_fromtimestamp. cbn.
  destruct (datetime_range env ms); cbn; [|by exists None, w1].
  eexists. eexists. split; [reflexivity|]. split; [done|].
  eexists. by repeat split.
Qed.

(** One candle out of the calendar's range empties the whole answer, and
    the run that follows collects nothing. *)
Example late_candle_drops_batch :
  fetch_historical_ohlcv late_candle_env "BTC/USDT" "1h" 1000 [] = (Ok [], [])
  /\ collect_data late_candle_env ref_sort ref.lib
                  default_symbols default_timeframes []
     = (Ok false, []).
Proof. split; vm_compute; reflexivity. Qed.

(** An order book with [None] as timestamp is answered with [None], and no
    record of the run carries a snapshot. *)
Example unstamped_book_dropped :
  fetch_orderbook unstamped_book_env "BTC/USDT" 20 [] = (Ok None, [])
  /\ map stamp_and_book
         (all_market_data
            (collect_records unstamped_book_env ref_sort ref.lib
                             ["BTC/USDT"] ["1h"] (mkRun [] [])).2)
     = [(1, false)].
Proof. split; vm_compute; reflexivity. Qed.

(** * The collection run *)

Lemma runs_for_each {S A} (I : S -> Prop) (xs : list A) (body : A -> M S unit) :
  (forall x, x ∈ xs -> runs I (body x)) -> runs I (for_each xs body).
Proof.
  induction xs as [|x xs IH]; intros Hbody s Hs; [by exists s|].
  cbn [for_each]. unfold mbind, M_bind.
  destruct (Hbody x (list_elem_of_here x xs) s Hs) as (s1 & -> & Hs1).
  apply IH; [|done]. intros y Hy. apply Hbody. by right.
Qed.

Lemma save_market_data_list_eq {W : Type} (env : Env W)
    (l : list MarketData) (w : W) :
  save_market_data_list env l w
  = match l with
    | [] => (Ok false, w)
    | _ :: _ =>
        match mapM to_dict l with
        | Raise e => (Raise e, w)
        | Ok rows =>
            match to_csv env rows w with
            | (Ok _, w') => (Ok true, w')
            | (Raise _, w') => (Ok false, w')
            end
        end
    end.
Proof.
  destruct l as [|md l]; [done|].
  unfold save_market_data_list. rewrite call_then.
  destruct (mapM to_dict (md :: l)) as [rows|e] eqn:Hrows; [|done].
  apply mapM_Ok in Hrows. inversion Hrows as [|? row ? rows' _ _]; subst.
  unfold save_to_csv, try_except, mbind, M_bind.
  by destruct (to_csv env (row :: rows') w) as [[[]|e] w'].
Qed.

(** The attachment block only ever changes records of the symbol and of a
    configured timeframe, and only by assigning the order book. *)
Lemma attach_orderbook_changes (symbol : string) (timeframes : list string)
    (ob : OrderBook) (all : list MarketData) (i : nat) (md' : MarketData) :
  attach_orderbook symbol timeframes ob all !! i = Some md' ->
  exists md,
    all !! i = Some md
    /\ (md' = md
        \/ (md' = set_order_book ob md
            /\ ohlcv_symbol (ohlcv md) = symbol
            /\ ohlcv_timeframe (ohlcv md) ∈ timeframes)).
Proof.
  revert i md'. induction timeframes as [|tf tfs IH] using rev_ind;
    intros i md'.
  { intros Hmd. exists md'. split; [done|by left]. }
  unfold attach_orderbook in *. rewrite foldl_snoc.
  set (X := foldl _ all tfs) in *.
  assert (Hweak : forall j m, X !! j = Some m ->
            exists md, all !! j = Some md
              /\ (m = md
                  \/ (m = set_order_book ob md
                      /\ ohlcv_symbol (ohlcv md) = symbol
                      /\ ohlcv_timeframe (ohlcv md) ∈ tfs ++ [tf]))).
  { intros j m Hm. destruct (IH j m Hm) as (md & Hmd & [->|(-> & Hs & Ht)]).
    - exists md. split; [done|by left].
    - exists md. split; [done|]. right. repeat split; try done.
      apply elem_of_app. by left. }
  destruct (attach_scan_full symbol tf ob X)
    as [[-> _]|(i0 & mx & Hx & [(m & Hm & Hp) _] & ->)]; [apply Hweak|].
  rewrite Hx in Hm. injection Hm as <-.
  destruct (decide (i = i0)) as [->|Hne].
  - rewrite list_lookup_insert_eq by (by apply lookup_lt_Some in Hx).
    intros [= <-]. apply is_pair_spec in Hp as [Hs Ht].
    destruct (IH i0 mx Hx) as (md & Hmd & [->|(-> & _ & _)]);
      exists md; (split; [done|]); right; repeat split; try done;
      apply elem_of_app; right; rewrite <- Ht; by left.
  - rewrite list_lookup_insert_ne by done. apply Hweak.
Qed.

Section RunFacts.

Context {W : Type} (env : Env W) (pd : PandasSort) (lib : ta.Lib).
Context (symbols timeframes : list string).

Lemma process_ohlcv_with_indicators_plain (l : list OHLCV) :
  exists out : list MarketData,
    process_ohlcv_with_indicators pd lib l = Ok out
    /\ map ohlcv out = l
    /\ Forall (fun md => order_book_snapshot md = None) out.
Proof.
  destruct (process_ohlcv_with_indicators_runs pd lib l) as (inds & _ & ->).
  eexists. split; [reflexivity|].
  split; [rewrite map_map; cbn; apply map_id|].
  as_fmap. apply Forall_fmap, Forall_forall. intros c _. cbn.
  by destruct (indicators_by_timestamp inds !! ohlcv_timestamp c).
Qed.

(** One pass of the inner loop in terms of the exchange service: the
    candles it returns are processed and appended. *)
Lemma collect_pair_step (symbol timeframe : string) (r : Run W) :
  exists (l : list OHLCV) (w' : W) (out : list MarketData),
    fetch_historical_ohlcv env symbol timeframe 1000 (world r) = (Ok l, w')
    /\ collect_pair env pd lib symbol timeframe r
       = (Ok tt, mkRun w' (all_market_data r ++ out))
    /\ map ohlcv out = l
    /\ Forall (fun md =>
                 is_pair symbol timeframe md = true
                 /\ order_book_snapshot md = None
                 /\ ti_key (indicators md) = ohlcv_key (ohlcv md)) out.
Proof.
  destruct (fetch_historical_ohlcv_tagged env symbol timeframe 1000 (world r))
    as (l & w' & Hfetch & Hpair & _).
  exists l, w'.
  unfold collect_pair, in_world, mbind, M_bind. rewrite Hfetch.
  destruct l as [|c l].
  - exists []. split; [done|]. split; [by rewrite app_nil_r|].
    split; [done|constructor].
  - destruct (process_ohlcv_with_indicators_plain (c :: l))
      as (out & Hout & Hohlcv & Hall).
    exists out. unfold call, modify. rewrite Hout. cbn.
    split; [done|]. split; [done|]. split; [done|].
    apply Forall_forall. intros md Hmd.
    rewrite Forall_forall in Hall.
    destruct (process_record_key pd lib _ _ md Hout Hmd) as (Hin & _ & Hkey).
    unfold single_pair in Hpair. rewrite Forall_forall in Hpair.
    split; [by apply is_pair_spec, Hpair|]. split; [by apply Hall|].
    by apply (Hkey symbol timeframe), Forall_forall.
Qed.

(** X11: one pass of the inner loop of [collect_data] never raises and only
    appends: the records accumulated before stay, in place and unchanged;
    every appended record is of the requested pair, without order book and
    with the candle's key on its indicator set.  When every item received
    is well formed and has a timestamp that converts to a datetime, one
    record is appended per item, in the order received; nothing is appended
    when the request raises, when it returns no item, or when one item is
    malformed or has a timestamp out of the calendar's range. *)
Theorem collect_pair_appends (symbol timeframe : string) (r : Run W) :
  exists (out : list MarketData) (r' : Run W),
    collect_pair env pd lib symbol timeframe r = (Ok tt, r')
    /\ all_market_data r' = all_market_data r ++ out
    /\ Forall (fun md =>
                 is_pair symbol timeframe md = true
                 /\ order_book_snapshot md = None
                 /\ ti_key (indicators md) = ohlcv_key (ohlcv md)) out
    /\ match fetch_ohlcv env symbol timeframe 1000 (world r) with
       | (Ok items, w1) =>
           world r' = w1
           /\ if forallb (candle_ok env) items
              then map (fun md => candle_raw (ohlcv md)) out = items
              else out = []
       | (Raise _, w1) => world r' = w1 /\ out = []
       end.
Proof.
  destruct (collect_pair_step symbol timeframe r)
    as (l & w' & out & Hfetch & Hrun & Hohlcv & Hout).
  exists out, (mkRun w' (all_market_data r ++ out)).
  split; [done|]. split; [done|]. split; [done|]. cbn [world].
  destruct (fetch_historical_ohlcv_tagged env symbol timeframe 1000 (world r))
    as (l2 & w2 & Hfetch2 & _ & Hraw).
  rewrite Hfetch in Hfetch2. injection Hfetch2 as <- <-.
  destruct (fetch_ohlcv env symbol timeframe 1000 (world r))
    as [[items|e] w1]; destruct Hraw as [-> Hraw]; (split; [done|]).
  - destruct (forallb (candle_ok env) items).
    + by rewrite <- Hraw, <- Hohlcv, map_map.
    + rewrite Hraw in Hohlcv. by apply map_eq_nil in Hohlcv.
  - rewrite Hraw in Hohlcv. by apply map_eq_nil in Hohlcv.
Qed.

Lemma collect_pair_runs (symbol timeframe : string) :
  symbol ∈ symbols -> timeframe ∈ timeframes ->
  runs (fun r => Forall (record_ok symbols timeframes) (all_market_data r))
       (collect_pair env pd lib symbol timeframe).
Proof.
  intros Hsym Htf r Hr.
  destruct (collect_pair_step symbol timeframe r)
    as (l & w' & out & _ & Hrun & _ & Hout).
  eexists. split; [exact Hrun|]. cbn [all_market_data].
  apply Forall_app. split; [done|].
  eapply Forall_impl; [exact Hout|]. intros md (Hp & Hnone & Hkey).
  apply is_pair_spec in Hp as [Hs Ht]. unfold record_ok.
  rewrite Hs, Ht. repeat split; try done.
  intros ob Hob. congruence.
Qed.

Lemma collect_symbol_runs (symbol : string) :
  symbol ∈ symbols ->
  runs (fun r => Forall (record_ok symbols timeframes) (all_market_data r))
       (collect_symbol env pd lib timeframes symbol).
Proof.
  intros Hsym r Hr. unfold collect_symbol, mbind, M_bind.
  destruct (runs_for_each _ timeframes (collect_pair env pd lib symbol)
              (fun tf Htf => collect_pair_runs symbol tf Hsym Htf) r Hr)
    as (r1 & -> & Hr1).
  destruct (fetch_orderbook_symbol env symbol 20 (world r1))
    as (o & w' & Hfetch & Hown).
  unfold in_world. rewrite Hfetch.
  destruct o as [ob|]; [|by eexists].
  eexists. split; [reflexivity|]. cbn.
  apply Forall_lookup. intros i md' Hmd'.
  destruct (attach_orderbook_changes _ _ _ _ _ _ Hmd')
    as (md & Hmd & [->|(-> & Hs & Ht)]).
  - rewrite Forall_lookup in Hr1. by apply (Hr1 i).
  - rewrite Forall_lookup in Hr1.
    destruct (Hr1 i md Hmd) as (Hs' & Ht' & Hkey & _).
    repeat split; try done. intros ob' [= <-].
    cbn. by rewrite Hs, (Hown ob eq_refl).
Qed.

(** X12: the collection loop of [collect_data] never raises, whatever the
    exchange and the library do, and every record it accumulates is of a
    configured symbol and a configured timeframe, has an indicator set with
    the key of its candle, and carries, if any, an order book fetched for
    its own symbol. *)
Theorem collect_records_invariant (w : W) :
  exists r : Run W,
    collect_records env pd lib symbols timeframes (mkRun w []) = (Ok tt, r)
    /\ Forall (record_ok symbols timeframes) (all_market_data r).
Proof.
  apply (runs_for_each
           (fun r => Forall (record_ok symbols timeframes) (all_market_data r))
           symbols (collect_symbol env pd lib timeframes)).
  - intros symbol Hsym. by apply collect_symbol_runs.
  - constructor.
Qed.

Lemma collect_records_returns (w : W) :
  exists r : Run W,
    collect_records env pd lib symbols timeframes (mkRun w []) = (Ok tt, r).
Proof.
  destruct (runs_for_each
              (fun r => Forall (record_ok symbols timeframes) (all_market_data r))
              symbols (collect_symbol env pd lib timeframes)
              (fun symbol Hsym => collect_symbol_runs symbol Hsym)
              (mkRun w []) (Forall_nil_2 _)) as (r & Hrun & _).
  by exists r.
Qed.

(** What [collect_data] does with the records its loop has accumulated. *)
Lemma collect_data_save (w : W) (r : Run W) :
  collect_records env pd lib symbols timeframes (mkRun w []) = (Ok tt, r) ->
  collect_data env pd lib symbols timeframes w
  = match all_market_data r with
    | [] => (Ok false, world r)
    | _ :: _ =>
        match mapM to_dict (all_market_data r) with
        | Raise _ => (Ok false, world r)
        | Ok rows =>
            match to_csv env rows (world r) with
            | (Ok _, w') => (Ok true, w')
            | (Raise _, w') => (Ok false, w')
            end
        end
    end.
Proof.
  intros Hrun.
  unfold collect_data, try_except, mbind, M_bind. rewrite Hrun.
  unfold call. cbn [fst snd].
  destruct r as [w1 all]. cbn [all_market_data world].
  destruct all as [|md all]; [done|].
  unfold in_world, append_to_dataset. cbn [world all_market_data].
  rewrite save_market_data_list_eq.
  destruct (mapM to_dict (md :: all)) as [rows|e]; [|done].
  by destruct (to_csv env rows w1) as [[[]|e] w'].
Qed.

(** X13: [collect_data] never raises.  With the records its loop has
    accumulated: it returns [False] without calling the writer when there
    is none, and when flattening one of them raises; otherwise the flattened
    records go to the writer once, in accumulation order, and the result is
    [True] when the writer returns and [False] when it raises. *)
Theorem collect_data_outcome (w : W) :
  exists r : Run W,
    collect_records env pd lib symbols timeframes (mkRun w []) = (Ok tt, r)
    /\ collect_data env pd lib symbols timeframes w
       = match all_market_data r with
         | [] => (Ok false, world r)
         | _ :: _ =>
             match mapM to_dict (all_market_data r) with
             | Raise _ => (Ok false, world r)
             | Ok rows =>
                 match to_csv env rows (world r) with
                 | (Ok _, w') => (Ok true, w')
                 | (Raise _, w') => (Ok false, w')
                 end
             end
         end.
Proof.
  destruct (collect_records_returns w) as (r & Hrun).
  exists r. split; [done|]. by apply collect_data_save.
Qed.

End RunFacts.

Lemma attach_orderbook_length (symbol : string) (timeframes : list string)
    (ob : OrderBook) (all : list MarketData) :
  length (attach_orderbook symbol timeframes ob all) = length all.
Proof. apply (attach_orderbook_cells symbol timeframes ob all). Qed.

(** X14: when every candle request raises or returns no candle, the run
    accumulates nothing and [collect_data] returns [False] without calling
    the writer. *)
Theorem collect_data_nothing_fetched {W : Type} (env : Env W)
    (pd : PandasSort) (lib : ta.Lib) (symbols timeframes : list string) (w : W) :
  (forall symbol timeframe w0,
      match fetch_ohlcv env symbol timeframe 1000 w0 with
      | (Ok raw, _) => raw = []
      | (Raise _, _) => True
      end) ->
  exists r : Run W,
    collect_records env pd lib symbols timeframes (mkRun w []) = (Ok tt, r)
    /\ all_market_data r = []
    /\ collect_data env pd lib symbols timeframes w = (Ok false, world r).
Proof.
  intros Hnone.
  assert (Hrun : exists r,
            collect_records env pd lib symbols timeframes (mkRun w [])
            = (Ok tt, r) /\ all_market_data r = []).
  { apply (runs_for_each (fun r => all_market_data r = [])); [|done].
    intros symbol _ r Hr. unfold collect_symbol, mbind, M_bind.
    destruct (runs_for_each (fun r => all_market_data r = []) timeframes
                (collect_pair env pd lib symbol)) with (s := r)
      as (r1 & -> & Hr1); [|done|].
    { intros timeframe _ r0 Hr0.
      destruct (collect_pair_step env pd lib symbol timeframe r0)
        as (l & w' & out & Hfetch & Hrun & Hohlcv & _).
      eexists. split; [exact Hrun|]. cbn [all_market_data]. rewrite Hr0.
      destruct (fetch_historical_ohlcv_tagged env symbol timeframe 1000
                  (world r0)) as (l2 & w2 & Hfetch2 & _ & Hraw).
      rewrite Hfetch in Hfetch2. injection Hfetch2 as <- <-.
      pose proof (Hnone symbol timeframe (world r0)) as Hempty.
      assert (l = []) as ->.
      { destruct (fetch_ohlcv env symbol timeframe 1000 (world r0))
          as [[items|e] w1]; destruct Hraw as [_ Hraw]; [|done].
        rewrite Hempty in Hraw. cbn in Hraw. by apply map_eq_nil in Hraw. }
      by apply map_eq_nil in Hohlcv as ->. }
    destruct (fetch_orderbook_symbol env symbol 20 (world r1))
      as (o & w' & Hfetch & _).
    unfold in_world. rewrite Hfetch.
    destruct o as [ob|]; [|by eexists].
    eexists. split; [reflexivity|]. cbn.
    apply nil_length_inv. by rewrite attach_orderbook_length, Hr1. }
  destruct Hrun as (r & Hrun & Hnil).
  exists r. split; [done|]. split; [done|].
  rewrite (collect_data_save env pd lib symbols timeframes w r Hrun).
  by rewrite Hnil.
Qed.

Lemma collect_data_nothing_fetched_witness :
  collect_data failing_env ref_sort ref.lib default_symbols default_timeframes []
  = (Ok false, []).
Proof.
  destruct (collect_data_nothing_fetched failing_env ref_sort ref.lib
              default_symbols default_timeframes [])
    as (r & Hrun & _ & ->); [done|].
  f_equal.
  assert (Hw : (collect_records failing_env ref_sort ref.lib default_symbols
                  default_timeframes (mkRun [] [])).2 = r) by (by rewrite Hrun).
  rewrite <- Hw. reflexivity.
Defined.

(** X15: the attachment block reaches every configured timeframe that has
    a record of the symbol: the last accumulated record of that pair carries
    the snapshot afterwards. *)
Theorem attach_orderbook_reaches (symbol : string) (timeframes : list string)
    (ob : OrderBook) (all : list MarketData) (tf : string) :
  tf ∈ timeframes ->
  (exists md, md ∈ all /\ is_pair symbol tf md = true) ->
  exists i md,
    all !! i = Some md
    /\ last_of_pair symbol tf all i
    /\ attach_orderbook symbol timeframes ob all !! i
       = Some (set_order_book ob md).
Proof.
  intros Htf (m & Hm & Hp).
  destruct (attach_scan_full symbol tf ob all)
    as [[_ Hnone]|(i & md & Hmd & Hlast & _)].
  - exfalso. apply list_elem_of_lookup in Hm as [j Hj].
    destruct (attach_scan_cases (length all) symbol tf ob all)
      as [[_ Hno]|(i & md & _ & Hmd & Hpi & Hafter & _)].
    + rewrite (Hno j m) in Hp; [done| |done]. by apply lookup_lt_Some in Hj.
    + apply (Hnone i). split; [by exists md|].
      intros k mk Hk Hmk. apply (Hafter k); [|done].
      apply lookup_lt_Some in Hmk. lia.
  - exists i, md. split; [done|]. split; [done|].
    destruct (attach_orderbook_cells symbol timeframes ob all) as (_ & Hset & _).
    apply Hset; [done|]. by exists tf.
Qed.

Lemma attach_orderbook_reaches_witness :
  exists i md,
    two_records !! i = Some md
    /\ last_of_pair "BTC/USDT" "1h" two_records i
    /\ attach_orderbook "BTC/USDT" ["4h"; "1h"] (book [] []) two_records !! i
       = Some (set_order_book (book [] []) md).
Proof.
  apply attach_orderbook_reaches.
  - apply (bool_decide_unpack _). vm_compute. exact I.
  - eexists. split; [by left|reflexivity].
Defined.

(** X16: the attachment block leaves every record of another symbol, and
    every record of a timeframe that is not configured, as it was; when no
    accumulated record is of the symbol, the list is unchanged. *)
Theorem attach_orderbook_others (symbol : string) (timeframes : list string)
    (ob : OrderBook) (all : list MarketData) :
  (forall i md, all !! i = Some md ->
     ohlcv_symbol (ohlcv md) <> symbol
     \/ ohlcv_timeframe (ohlcv md) ∉ timeframes ->
     attach_orderbook symbol timeframes ob all !! i = Some md)
  /\ (Forall (fun md => ohlcv_symbol (ohlcv md) <> symbol) all ->
      attach_orderbook symbol timeframes ob all = all).
Proof.
  assert (Hkeep : forall i md, all !! i = Some md ->
            ohlcv_symbol (ohlcv md) <> symbol
            \/ ohlcv_timeframe (ohlcv md) ∉ timeframes ->
            attach_orderbook symbol timeframes ob all !! i = Some md).
  { intros i md Hmd Hother.
    destruct (attach_orderbook symbol timeframes ob all !! i) as [md'|] eqn:Hmd'.
    - destruct (attach_orderbook_changes _ _ _ _ _ _ Hmd')
        as (m & Hm & [->|(_ & Hs & Ht)]); [congruence|].
      rewrite Hmd in Hm. injection Hm as <-. by destruct Hother.
    - apply lookup_ge_None in Hmd'. rewrite attach_orderbook_length in Hmd'.
      apply lookup_lt_Some in Hmd. lia. }
  split; [exact Hkeep|]. intros Hall.
  apply list_eq. intros i.
  destruct (all !! i) as [md|] eqn:Hmd.
  - apply (Hkeep i md Hmd). left.
    rewrite Forall_lookup in Hall. by apply (Hall i).
  - apply lookup_ge_None. rewrite attach_orderbook_length.
    by apply lookup_ge_None.
Qed.

Lemma attach_orderbook_others_witness :
  attach_orderbook "ETH/USDT" ["1h"; "4h"] (book [] []) two_records
  = two_records.
Proof.
  apply (attach_orderbook_others "ETH/USDT" ["1h"; "4h"] (book [] []) two_records).
  repeat constructor; discriminate.
Defined.

Lemma for_each_prefix {S A} (I : list A -> S -> Prop) (xs : list A)
    (body : A -> M S unit) :
  (forall pre x s, I pre s ->
     exists s', body x s = (Ok tt, s') /\ I (pre ++ [x]) s') ->
  forall s, I [] s -> exists s', for_each xs body s = (Ok tt, s') /\ I xs s'.
Proof.
  intros Hbody.
  cut (forall pre s, I pre s ->
         exists s', for_each xs body s = (Ok tt, s') /\ I (pre ++ xs) s').
  { intros H s Hs. apply (H [] s Hs). }
  induction xs as [|x xs IH]; intros pre s Hs.
  - exists s. by rewrite app_nil_r.
  - cbn [for_each]. unfold mbind, M_bind.
    destruct (Hbody pre x s Hs) as (s1 & -> & Hs1).
    destruct (IH (pre ++ [x]) s1 Hs1) as (s2 & Hrun & Hs2).
    exists s2. split; [done|]. by rewrite <- app_assoc in Hs2.
Qed.

(** X17: [fetch_all_data_for_symbols] never raises; the dict it returns has
    exactly the requested symbols as keys, under each of them exactly the
    requested timeframes, and every stored list holds candles tagged with
    its own symbol and timeframe. *)
Theorem fetch_all_data_for_symbols_result {W : Type} (env : Env W)
    (symbols timeframes : list string) (w : W) :
  exists (res : gmap string (gmap string (list OHLCV))) (w' : W),
    fetch_all_data_for_symbols env symbols timeframes w = (Ok res, w')
    /\ dom res = list_to_set symbols
    /\ forall symbol inner, res !! symbol = Some inner ->
         dom inner = list_to_set timeframes
         /\ forall timeframe l, inner !! timeframe = Some l ->
              single_pair symbol timeframe l.
Proof.
  set (good := fun (symbol : string) (tfs : list string)
                   (inner : gmap string (list OHLCV)) =>
                 dom inner = (list_to_set tfs : gset string)
                 /\ forall timeframe l, inner !! timeframe = Some l ->
                      single_pair symbol timeframe l).
  set (K := fun (pre : list string) (s : Fetching W) =>
              dom (result s) = (list_to_set pre : gset string)
              /\ forall symbol inner, result s !! symbol = Some inner ->
                   good symbol timeframes inner).
  unfold fetch_all_data_for_symbols.
  destruct (for_each_prefix K symbols
              (fun symbol =>
                 reset_symbol symbol;;
                 for_each timeframes (fun timeframe =>
                   data ← in_exchange
                            (fetch_historical_ohlcv env symbol timeframe 1000);
                   store_candles symbol timeframe data)))
    with (s := mkFetching w ∅) as (s' & -> & Hdom & Hin).
  - intros pre symbol s [Hd Hi].
    set (J := fun (tfs : list string) (t : Fetching W) =>
                exists inner, result t = <[symbol := inner]> (result s)
                              /\ good symbol tfs inner).
    destruct (for_each_prefix J timeframes
                (fun timeframe =>
                   data ← in_exchange
                            (fetch_historical_ohlcv env symbol timeframe 1000);
                   store_candles symbol timeframe data))
      with (s := mkFetching (exchange_world s) (<[symbol := ∅]> (result s)))
      as (t & Hrun & inner & Ht & Hgood).
    + intros tfs timeframe t (inner & Ht & Hd1 & Hi1).
      unfold mbind, M_bind, in_exchange.
      destruct (fetch_historical_ohlcv_tagged env symbol timeframe 1000
                  (exchange_world t)) as (l & w1 & -> & Hpair & _).
      unfold store_candles. cbn. rewrite Ht, lookup_insert_eq.
      eexists. split; [reflexivity|].
      exists (<[timeframe := l]> inner). cbn.
      split; [by rewrite insert_insert_eq|]. split.
      * rewrite dom_insert_L, list_to_set_app_L, Hd1.
        apply set_eq. intros k. rewrite !elem_of_union, list_to_set_singleton.
        tauto.
      * intros tf0 l0. destruct (decide (tf0 = timeframe)) as [->|Hne].
        -- rewrite lookup_insert_eq. by intros [= <-].
        -- rewrite lookup_insert_ne by done. apply Hi1.
    + exists ∅. split; [done|]. split; [set_solver|].
      intros ? ?. by rewrite lookup_empty.
    + exists t. split; [exact Hrun|]. split.
      * rewrite Ht, dom_insert_L, list_to_set_app_L, Hd.
        apply set_eq. intros k. rewrite !elem_of_union, list_to_set_singleton.
        tauto.
      * intros sym0 inner0. rewrite Ht.
        destruct (decide (sym0 = symbol)) as [->|Hne].
        -- rewrite lookup_insert_eq. by intros [= <-].
        -- rewrite lookup_insert_ne by done. apply Hi.
  - split; [set_solver|]. intros ? ?. cbn. by rewrite lookup_empty.
  - exists (result s'), (exchange_world s'). done.
Qed.
